(** * tdms_hd5f.py: TDMS to HDF5 conversion and HDF5 recompression

    A shallow embedding of [src/tdms_hd5f.py].  The script has three
    procedures: [convert_tdms_to_hdf5], [compress_hdf5_file] and [main].
    They are embedded as functions on an explicit [world] (file system,
    standard output, table of open file handles, [sys.argv]).

    The collaborators the script calls are embedded next to it:
    - [os.path.splitext] (posixpath) follows [genericpath._splitext];
    - the h5py calls used by the script ([File], [visititems],
      [create_dataset], [require_group], [attrs]) act on a tree of
      groups, datasets, committed datatypes and links;
    - the nptdms calls ([TdmsFile.read], [as_hdf]) are a parameter. *)

From Stdlib Require Import ZArith String Ascii List Bool Lia.
From stdpp Require Import gmap strings list fin_maps.

Set Warnings "-register-all".

Local Open Scope Z_scope.

(** ** Python strings: the slices and searches the script relies on *)

Module PyStr.

(** [p.rfind(c)] for a one-character needle: the highest index holding
    [c], or [-1].  [i] is the index of the head of [s]. *)
Fixpoint rfind_from (c : ascii) (s : string) (i : Z) : Z :=
  match s with
  | EmptyString => -1
  | String x r =>
      let k := rfind_from c r (i + 1) in
      if 0 <=? k then k else if Ascii.eqb x c then i else -1
  end.

Definition rfind (c : ascii) (s : string) : Z := rfind_from c s 0.

(** [p[:n]] and [p[n:]] for [0 <= n]. *)
Fixpoint take (n : nat) (s : string) : string :=
  match n, s with
  | S n', String x r => String x (take n' r)
  | _, _ => EmptyString
  end.

Fixpoint drop (n : nat) (s : string) : string :=
  match n, s with
  | S n', String _ r => drop n' r
  | _, _ => s
  end.

Definition slice_to (s : string) (n : Z) : string := take (Z.to_nat n) s.
Definition slice_from (s : string) (n : Z) : string := drop (Z.to_nat n) s.

(** [p[i:i+1]]: the one-character slice, empty out of range. *)
Definition slice1 (s : string) (i : Z) : string :=
  take 1 (drop (Z.to_nat i) s).

(** Membership of a character in a string, as a boolean. *)
Fixpoint mem (c : ascii) (s : string) : bool :=
  match s with
  | EmptyString => false
  | String x r => Ascii.eqb x c || mem c r
  end.

End PyStr.

(** ** os.path.splitext (posixpath: sep "/", no altsep, extsep ".") *)

Definition sep : ascii := "/"%char.
Definition extsep : ascii := "."%char.

(** The [while filenameIndex < dotIndex] loop of [_splitext]: it skips
    the dots that lead the file name and splits at [dotIndex] as soon as
    it meets another character.  [n] bounds the iterations; the caller
    passes the distance between the two indices. *)
Fixpoint splitext_loop (p : string) (dotIndex : Z) (n : nat)
    (filenameIndex : Z) : string * string :=
  match n with
  | O => (p, EmptyString)
  | S n' =>
      if filenameIndex <? dotIndex then
        if String.eqb (PyStr.slice1 p filenameIndex) (String extsep EmptyString)
        then splitext_loop p dotIndex n' (filenameIndex + 1)
        else (PyStr.slice_to p dotIndex, PyStr.slice_from p dotIndex)
      else (p, EmptyString)
  end.

Definition splitext (p : string) : string * string :=
  let sepIndex := PyStr.rfind sep p in
  let dotIndex := PyStr.rfind extsep p in
  if sepIndex <? dotIndex then
    let filenameIndex := sepIndex + 1 in
    splitext_loop p dotIndex (Z.to_nat (dotIndex - filenameIndex)) filenameIndex
  else (p, EmptyString).

(** ** Output path derivation *)

(** Lines 20-22 of [convert_tdms_to_hdf5]. *)
Definition resolve_hdf5_filepath (tdms_filepath : string)
    (hdf5_filepath : option string) : string :=
  match hdf5_filepath with
  | None => let '(base, _) := splitext tdms_filepath in base +:+ ".h5"
  | Some q => q
  end.

(** Lines 50-51 of [compress_hdf5_file]. *)
Definition compressed_output_path (input_path : string) : string :=
  let '(base, ext) := splitext input_path in
  base +:+ "_compressed" +:+ ext.

(** ** HDF5 containers *)

(** An attribute value as h5py hands it over: a scalar, a string or an
    array.  The script never looks inside one. *)
Inductive attr_value :=
| AttrInt (z : Z)
| AttrStr (s : string)
| AttrArr (zs : list Z).

(** What [obj[()]] returns and [create_dataset(data=...)] stores: a shape,
    an element type and the decoded elements.  As in h5py, the shape
    [None] is the null dataspace ([h5py.Empty]), the empty shape is the
    scalar dataspace. *)
Record ndarray := NdArray {
  shape : option (list nat);
  dtype : string;
  elements : list Z
}.

(** An object name such as "g/sub/d", split at "/". *)
Definition path := list string.

(** An entry of the container.  A dataset carries its storage filter
    (codec and level) next to its decoded payload.  A committed datatype
    is an object of its own.  A [Link] entry is a name that is not the
    object itself: a soft link, or a further hard link to an object that
    the traversal reaches under another name ([target]).  The members of
    a group are listed as HDF5's name index lists them, by increasing
    name. *)
Inductive node :=
| Dataset (attrs : gmap string attr_value) (data : ndarray)
          (filters : option (string * Z))
| Group (attrs : gmap string attr_value) (members : list (string * node))
| Datatype (attrs : gmap string attr_value) (dtype : string)
| Link (target : path).

Definition node_attrs (x : node) : gmap string attr_value :=
  match x with
  | Dataset a _ _ => a
  | Group a _ => a
  | Datatype a _ => a
  | Link _ => ∅
  end.

Definition node_members (x : node) : list (string * node) :=
  match x with Group _ ms => ms | _ => [] end.

(** The root group of a file just created with mode 'w'. *)
Definition empty_file : node := Group ∅ [].

Fixpoint lookup_member (n : string) (ms : list (string * node)) : option node :=
  match ms with
  | [] => None
  | (m, c) :: r => if String.eqb m n then Some c else lookup_member n r
  end.

Fixpoint replace_member (n : string) (c' : node) (ms : list (string * node))
    : list (string * node) :=
  match ms with
  | [] => []
  | (m, c) :: r =>
      if String.eqb m n then (m, c') :: r else (m, c) :: replace_member n c' r
  end.

(** The place of a new name in a list kept by increasing name. *)
Fixpoint insert_by_name {A} (n : string) (a : A) (l : list (string * A))
    : list (string * A) :=
  match l with
  | [] => [(n, a)]
  | (m, b) :: r =>
      if String.ltb n m then (n, a) :: (m, b) :: r
      else (m, b) :: insert_by_name n a r
  end.

Definition sort_by_name {A} (l : list (string * A)) : list (string * A) :=
  fold_right (fun nb acc => insert_by_name (fst nb) (snd nb) acc) [] l.

(** The entry at a name relative to [x]; links are not followed. *)
Fixpoint resolve (p : path) (x : node) : option node :=
  match p with
  | [] => Some x
  | n :: r =>
      match x with
      | Group _ ms =>
          match lookup_member n ms with
          | Some c => resolve r c
          | None => None
          end
      | _ => None
      end
  end.

(** ** The h5py calls, as a state and exception monad over the open
       output file *)

Inductive result (A : Type) :=
| Ok (a : A)
| Raise.
Arguments Ok {A} a.
Arguments Raise {A}.

Definition H5 (A : Type) : Type := node -> node * result A.

Definition ret {A} (a : A) : H5 A := fun x => (x, Ok a).
Definition raise {A} : H5 A := fun x => (x, Raise).
Definition bind {A B} (m : H5 A) (k : A -> H5 B) : H5 B :=
  fun x =>
    match m x with
    | (x', Ok a) => k a x'
    | (x', Raise) => (x', Raise)
    end.

Notation "m >>> k" := (bind m (fun _ => k))
  (at level 62, right associativity).

(** A [for] loop whose body may raise. *)
Fixpoint foreach {A} (l : list A) (body : A -> H5 unit) : H5 unit :=
  match l with
  | [] => ret tt
  | a :: r => body a >>> foreach r body
  end.

(** Run [f] on the member called [n] of the current group.  The script
    writes into a file it has just created and makes no link in it, so
    the member is taken as the entry itself. *)
Definition descend {A} (n : string) (f : H5 A) : H5 A :=
  fun x =>
    match x with
    | Group a ms =>
        match lookup_member n ms with
        | Some c => let '(c', r) := f c in (Group a (replace_member n c' ms), r)
        | None => (x, Raise)
        end
    | _ => (x, Raise)
    end.

Fixpoint at_path {A} (p : path) (f : H5 A) : H5 A :=
  match p with
  | [] => f
  | n :: r => descend n (at_path r f)
  end.

(** [obj.attrs[key] = value] on the current object. *)
Definition set_attr (key : string) (value : attr_value) : H5 unit :=
  fun x =>
    match x with
    | Dataset a d f => (Dataset (<[key := value]> a) d f, Ok tt)
    | Group a ms => (Group (<[key := value]> a) ms, Ok tt)
    | Datatype a t => (Datatype (<[key := value]> a) t, Ok tt)
    | Link _ => (x, Raise)
    end.

Definition attrs_set (p : path) (key : string) (value : attr_value) : H5 unit :=
  at_path p (set_attr key value).

(** The chain of fresh groups that creating "a/b/c" under a group
    without "a" adds. *)
Fixpoint new_groups (p : path) : node :=
  match p with
  | [] => Group ∅ []
  | n :: r => Group ∅ [(n, new_groups r)]
  end.

(** [require_group(name)]: the group is returned when it exists, created
    with its missing ancestors when it does not; an object of another
    kind on the way raises TypeError. *)
Fixpoint require_group (p : path) : H5 unit :=
  fun x =>
    match p with
    | [] =>
        match x with
        | Group _ _ => (x, Ok tt)
        | _ => (x, Raise)
        end
    | n :: r =>
        match x with
        | Group a ms =>
            match lookup_member n ms with
            | Some _ => descend n (require_group r) x
            | None => (Group a (insert_by_name n (new_groups r) ms), Ok tt)
            end
        | _ => (x, Raise)
        end
    end.

(** The filters h5py accepts for a codec given as [str] and options given
    as [int]: gzip with a level in [range(10)].  "lzf" takes no options
    and "szip" takes a pair, so an [int] is refused for both. *)
Definition filter_accepted (compression : string) (compression_opts : Z) : bool :=
  String.eqb compression "gzip" && (0 <=? compression_opts) && (compression_opts <=? 9).

(** A dataspace a filter can be set on: one with at least one dimension.
    The null and the scalar dataspace cannot be chunked. *)
Definition filterable (data : ndarray) : bool :=
  match shape data with
  | Some (_ :: _) => true
  | _ => false
  end.

(** Python truthiness of the two filter arguments. *)
Definition filter_options_given (compression : string) (compression_opts : Z)
    : bool :=
  negb (String.eqb compression EmptyString) || negb (compression_opts =? 0).

(** What h5py's [fill_dcpl] decides for a dataspace and the two filter
    arguments: [None] is an exception, [Some f] the filter the new
    dataset is stored under.  For the null and the scalar dataspace any
    option given is a TypeError and none given means no filter; for the
    other dataspaces the codec and its options must be ones h5py
    accepts (ValueError otherwise). *)
Definition storage_filter (data : ndarray) (compression : string)
    (compression_opts : Z) : option (option (string * Z)) :=
  if filterable data then
    if filter_accepted compression compression_opts
    then Some (Some (compression, compression_opts))
    else None
  else
    if filter_options_given compression compression_opts then None
    else Some None.

(** Link a new member into the current group; the name must be free. *)
Definition link_member (n : string) (c : node) : H5 unit :=
  fun x =>
    match x with
    | Group a ms =>
        match lookup_member n ms with
        | None => (Group a (insert_by_name n c ms), Ok tt)
        | Some _ => (x, Raise)
        end
    | _ => (x, Raise)
    end.

(** [name.rsplit("/", 1)]. *)
Fixpoint rsplit (p : path) : option (path * string) :=
  match p with
  | [] => None
  | [n] => Some ([], n)
  | n :: r =>
      match rsplit r with
      | Some (q, l) => Some (n :: q, l)
      | None => None
      end
  end.

(** [create_dataset(name, data=data, compression=..., compression_opts=...)]:
    the parent group is required first, then the filter options are
    checked against the dataspace, then the dataset is linked under a
    name that must be free.  The new dataset has no attributes.  The
    traversal never passes the empty name (h5py would make an anonymous
    dataset); the model refuses it. *)
Definition create_dataset (name : path) (data : ndarray)
    (compression : string) (compression_opts : Z) : H5 unit :=
  match rsplit name with
  | None => raise
  | Some (parent_path, last) =>
      require_group parent_path >>>
      match storage_filter data compression compression_opts with
      | None => raise
      | Some f => at_path parent_path (link_member last (Dataset ∅ data f))
      end
  end.

(** What [visititems] hands over for one member: nothing for a link (a
    soft link is no object, and an object is visited under one name
    only), the object and then what is below it otherwise. *)
Definition visit_member (n : string) (c : node) (below : list (path * node))
    : list (path * node) :=
  match c with
  | Link _ => []
  | _ => ([n], c) :: map (fun qc : path * node => (n :: fst qc, snd qc)) below
  end.

(** [visititems]: every object below [x], parents before members,
    siblings by increasing name, each with its name relative to [x].
    [x] itself is not visited. *)
Fixpoint visit (x : node) : list (path * node) :=
  match x with
  | Group _ ms =>
      concat
        (map snd
           (sort_by_name
              (map (fun nc : string * node =>
                      (fst nc, visit_member (fst nc) (snd nc) (visit (snd nc))))
                   ms)))
  | _ => []
  end.

(** ** The body of compress_hdf5_file *)

Section Compressor.
Variable compression : string.
Variable compression_opts : Z.

(** [for key, value in obj.attrs.items(): target.attrs[key] = value] *)
Definition copy_attrs (name : path) (a : gmap string attr_value) : H5 unit :=
  foreach (map_to_list a) (fun kv => attrs_set name (fst kv) (snd kv)).

(** The callback [copy_item(name, obj)], lines 56-80.  An object that is
    neither a dataset nor a group (a committed datatype) matches no
    branch. *)
Definition copy_item (name : path) (obj : node) : H5 unit :=
  match obj with
  | Dataset a data _ =>
      create_dataset name data compression compression_opts >>>
      copy_attrs name a
  | Group a _ =>
      require_group name >>>
      copy_attrs name a
  | _ => ret tt
  end.

(** [f_in.visititems(copy_item)], line 83. *)
Definition copy_all (f_in : node) : H5 unit :=
  foreach (visit f_in) (fun no => copy_item (fst no) (snd no)).
End Compressor.

(** ** The process and its file system *)

(** A file is an HDF5 container or anything else (a TDMS file included),
    kept as raw bytes. *)
Inductive file :=
| Hdf5 (root : node)
| Raw (bytes : list Z).

(** The two modes the script opens files with: 'r' and 'w'. *)
Inductive open_mode := ReadOnly | Truncate.

Global Instance open_mode_eq_dec : EqDecision open_mode.
Proof. solve_decision. Defined.

(** The file system maps the name of a file to its contents; it has no
    directories and no permissions. *)
Record world := World {
  fs : gmap string file;
  stdout : list string;
  handles : list (string * open_mode);
  argv : list string
}.

(** How a call ends: it returns a value ([None] or a [str]), an exception
    propagates to the caller, or [sys.exit(status)] was called. *)
Inductive outcome :=
| Returned (value : option string)
| Raised
| Exited (status : Z).

Definition print (w : world) (line : string) : world :=
  {| fs := fs w; stdout := (stdout w ++ [line])%list;
     handles := handles w; argv := argv w |}.

Definition with_fs (w : world) (m : gmap string file) : world :=
  {| fs := m; stdout := stdout w; handles := handles w; argv := argv w |}.

Definition with_handles (w : world) (h : list (string * open_mode)) : world :=
  {| fs := fs w; stdout := stdout w; handles := h; argv := argv w |}.

(** [os.path.exists] *)
Definition path_exists (w : world) (p : string) : bool :=
  match fs w !! p with Some _ => true | None => false end.

Fixpoint remove_first (h : string * open_mode) (l : list (string * open_mode))
    : list (string * open_mode) :=
  match l with
  | [] => []
  | x :: r => if decide (x = h) then r else x :: remove_first h r
  end.

(** [h5py.File(p, 'r')]: the root group of the container and the world
    holding the new handle; [None] when [p] is missing or is not an HDF5
    container (OSError). *)
Definition File_r (w : world) (p : string) : option (world * node) :=
  match fs w !! p with
  | Some (Hdf5 root) => Some (with_handles w ((p, ReadOnly) :: handles w), root)
  | _ => None
  end.

(** The last component of a path: what follows its last separator. *)
Fixpoint basename (p : string) : string :=
  match p with
  | EmptyString => EmptyString
  | String x r => if PyStr.mem sep p then basename r else p
  end.

(** A name a file can be created under: its last component is not
    empty (the empty name, a name ending in the separator) and is not
    "." or "..", which name directories. *)
Definition creatable (p : string) : bool :=
  negb (String.eqb (basename p) EmptyString)
  && negb (String.eqb (basename p) ".")
  && negb (String.eqb (basename p) "..").

(** [h5py.File(p, 'w')]: create the file, truncating one that exists;
    [None] when the file cannot be created (OSError).  The file system
    of the model has no directories and no permissions, so the name
    alone decides. *)
Definition File_w (w : world) (p : string) : option world :=
  if creatable p then
    Some (with_handles (with_fs w (<[p := Hdf5 empty_file]> (fs w)))
                       ((p, Truncate) :: handles w))
  else None.

(** What the output handle has written reaches the file. *)
Definition flush (w : world) (p : string) (root : node) : world :=
  with_fs w (<[p := Hdf5 root]> (fs w)).

(** [File.close()]: what leaving a [with] block does, and what the
    interpreter does when it finalises a [File] object nothing refers to
    any more. *)
Definition close (w : world) (p : string) (m : open_mode) : world :=
  with_handles w (remove_first (p, m) (handles w)).

(** compress_hdf5_file, lines 34-85.  The [with] statement opens the
    input first and the output second; whatever happens after the input
    is open, what was opened is closed when the block is left.  The
    function has no [return]. *)
Definition compress_hdf5_file (w : world) (input_path : string)
    (compression : string) (compression_opts : Z) : world * outcome :=
  let output_path := compressed_output_path input_path in
  match File_r w input_path with
  | None => (w, Raised)
  | Some (w1, f_in) =>
      match File_w w1 output_path with
      | None => (close w1 input_path ReadOnly, Raised)
      | Some w2 =>
          let '(f_out, r) :=
            copy_all compression compression_opts f_in empty_file in
          let w3 := close (flush w2 output_path f_out) output_path Truncate in
          let w4 := close w3 input_path ReadOnly in
          match r with
          | Ok _ =>
              (print w4 ("Compressed file saved as: " +:+ output_path),
               Returned None)
          | Raise => (w4, Raised)
          end
      end
  end.

(** The defaults of the signature: [compression="gzip"],
    [compression_opts=9]. *)
Definition default_compression : string := "gzip".
Definition default_compression_opts : Z := 9.

(** Python truthiness of an argument that is [None] or a [str]. *)
Definition truthy (s : option string) : bool :=
  match s with
  | None => false
  | Some EmptyString => false
  | Some (String _ _) => true
  end.

Section Converter.
(** nptdms, taken as given: [tdms_parse] is what [TdmsFile.read] makes
    of the bytes of a file ([None]: it raises), [hdf_export] is the
    sequence of h5py calls [as_hdf] issues on the file it has opened. *)
Context {tdms_file : Type}.
Variable tdms_parse : list Z -> option tdms_file.
Variable hdf_export : tdms_file -> H5 unit.

(** [TdmsFile.read(p)]: reads the whole file and closes it. *)
Definition TdmsFile_read (w : world) (p : string) : option tdms_file :=
  match fs w !! p with
  | Some (Raw bytes) => tdms_parse bytes
  | _ => None
  end.

(** [tdms_file.as_hdf(p, mode='w', group='/')]: opens [p] with mode
    'w', writes the export and hands the open [h5py.File] back.  [None]
    when the file cannot be created: nothing is opened or written.
    Otherwise the file is open, and the export has completed or raised. *)
Definition as_hdf (w : world) (t : tdms_file) (p : string)
    : option (world * result unit) :=
  match File_w w p with
  | None => None
  | Some w1 =>
      let '(root, r) := hdf_export t empty_file in
      Some (flush w1 p root, r)
  end.

(** convert_tdms_to_hdf5, lines 6-32.  The value of [as_hdf] is bound
    to nothing: once line 31 is left nothing in the function refers to
    the [File] object, and the interpreter finalises it, which closes
    the file. *)
Definition convert_tdms_to_hdf5 (w : world) (tdms_filepath : string)
    (hdf5_filepath : option string) : world * outcome :=
  if negb (path_exists w tdms_filepath) then
    (print w ("Error: The file '" +:+ tdms_filepath +:+ "' does not exist."),
     Exited 1)
  else
    let hdf5_filepath := resolve_hdf5_filepath tdms_filepath hdf5_filepath in
    let w1 := print w ("Converting '" +:+ tdms_filepath +:+ "' to '"
                       +:+ hdf5_filepath +:+ "'...") in
    match TdmsFile_read w1 tdms_filepath with
    | None => (w1, Raised)
    | Some t =>
        match as_hdf w1 t hdf5_filepath with
        | None => (w1, Raised)
        | Some (w2, Ok _) =>
            (print (close w2 hdf5_filepath Truncate) "Conversion complete!",
             Returned None)
        | Some (w2, Raise) => (close w2 hdf5_filepath Truncate, Raised)
        end
    end.

(** main, lines 88-104.  Its parameters are [None] or a [str]. *)
Definition main (w : world) (tdms_filepath hdf5_filepath : option string)
    : world * outcome :=
  if (1 <? length (argv w))%nat then
    let tdms_filepath := nth 1 (argv w) EmptyString in
    let hdf5_filepath :=
      if (2 <? length (argv w))%nat then Some (nth 2 (argv w) EmptyString)
      else None in
    convert_tdms_to_hdf5 w tdms_filepath hdf5_filepath
  else
    if negb (truthy tdms_filepath) then
      (print w "No TDMS file provided. Exiting.", Exited 1)
    else
      let hdf5_filepath :=
        if negb (truthy hdf5_filepath) then None else hdf5_filepath in
      convert_tdms_to_hdf5 w (default EmptyString tdms_filepath) hdf5_filepath.
End Converter.

(** ** Vocabulary of the statements *)

(** What an extension is for [os.path.splitext]: empty, or one dot
    followed by characters that are neither a dot nor a separator. *)
Definition is_extension (ext : string) : Prop :=
  ext = EmptyString \/
  exists rest, ext = String extsep rest /\
               PyStr.mem extsep rest = false /\ PyStr.mem sep rest = false.

(** The string holds nothing but dots (the empty string included). *)
Fixpoint all_dots (s : string) : bool :=
  match s with
  | EmptyString => true
  | String x r => Ascii.eqb x extsep && all_dots r
  end.

(** A directory prefix: empty, or ending in the separator. *)
Definition is_dir_prefix (dir : string) : Prop :=
  dir = EmptyString \/ exists d, dir = d +:+ String sep EmptyString.

(** What the compressor writes for one member of a group: a dataset or a
    group under its name, nothing for a committed datatype or a link. *)
Definition copied_member (g : node -> node) (nc : string * node)
    : list (string * node) :=
  match snd nc with
  | Dataset _ _ _ | Group _ _ => [(fst nc, g (snd nc))]
  | _ => []
  end.

(** The tree the compressor writes for [x]: its groups and datasets,
    every dataset stored under the filter [flt] when its dataspace takes
    one and under none when it does not. *)
Fixpoint recompress (flt : string * Z) (x : node) : node :=
  match x with
  | Dataset a d _ => Dataset a d (if filterable d then Some flt else None)
  | Group a ms => Group a (flat_map (copied_member (recompress flt)) ms)
  | _ => x
  end.

(** The decoded contents of a tree: the storage filter is forgotten. *)
Fixpoint decoded (x : node) : node :=
  match x with
  | Dataset a d _ => Dataset a d None
  | Group a ms =>
      Group a (map (fun nc : string * node => (fst nc, decoded (snd nc))) ms)
  | _ => x
  end.

(** Two containers with the same paths, nesting, attributes and decoded
    data. *)
Definition isomorphic (x y : node) : Prop := decoded x = decoded y.

(** The names are listed in strictly increasing order. *)
Fixpoint ordered_names (l : list string) : bool :=
  match l with
  | [] => true
  | n :: r => forallb (String.ltb n) r && ordered_names r
  end.

(** In every group of the tree the members are listed by strictly
    increasing name, so that a name occurs once in a group. *)
Fixpoint name_ordered (x : node) : bool :=
  match x with
  | Group _ ms =>
      ordered_names (map fst ms)
      && forallb (fun nc : string * node => name_ordered (snd nc)) ms
  | _ => true
  end.

Definition is_group (x : node) : bool :=
  match x with Group _ _ => true | _ => false end.

(** A well-formed container: the root is a group, and every group lists
    its members as the name index does. *)
Definition valid_file (x : node) : bool := is_group x && name_ordered x.

(** Every dataset of the tree has a dataspace a filter can be set on:
    none is scalar, none is null. *)
Fixpoint chunkable (x : node) : bool :=
  match x with
  | Dataset _ d _ => filterable d
  | Group _ ms => forallb (fun nc : string * node => chunkable (snd nc)) ms
  | _ => true
  end.

(** The tree holds groups and datasets only, each under one name: no
    committed datatype, no soft link, no second hard link. *)
Fixpoint plain (x : node) : bool :=
  match x with
  | Dataset _ _ _ => true
  | Group _ ms => forallb (fun nc : string * node => plain (snd nc)) ms
  | _ => false
  end.

(** The current node is a group with a member called [n]. *)
Definition has_member (n : string) (x : node) : Prop :=
  match x with
  | Group _ ms => lookup_member n ms <> None
  | _ => False
  end.

(** The node [x] carrying the attributes [a] instead of its own. *)
Definition with_attrs (a : gmap string attr_value) (x : node) : node :=
  match x with
  | Dataset _ d f => Dataset a d f
  | Group _ ms => Group a ms
  | Datatype _ t => Datatype a t
  | Link t => Link t
  end.

(** The attributes after the assignments of [l], made in order. *)
Definition assign_all (l : list (string * attr_value))
    (a : gmap string attr_value) : gmap string attr_value :=
  fold_left (fun m kv => <[fst kv := snd kv]> m) l a.

(** The message compress_hdf5_file prints when the copy is complete. *)
Definition saved_message (input_path : string) : string :=
  "Compressed file saved as: " +:+ compressed_output_path input_path.

(** The world and outcome of compress_hdf5_file once the input is open
    as [f_in]: the output path holds what the traversal wrote, starting
    from an empty file. *)
Definition compressed_world (w : world) (input_path : string)
    (f_out : node) (r : result unit) : world * outcome :=
  match r with
  | Ok _ =>
      (print (with_fs w (<[compressed_output_path input_path := Hdf5 f_out]> (fs w)))
             (saved_message input_path),
       Returned None)
  | Raise =>
      (with_fs w (<[compressed_output_path input_path := Hdf5 f_out]> (fs w)),
       Raised)
  end.

(** "The dataset at every dataset path of the input is in the output, at
    the same path, with the same payload and attributes and under the
    given filter": the per-dataset action, read off the files before and
    after a run.  A dataset has one path here, the one [visititems]
    reaches it under; its other names are [Link] entries. *)
Definition datasets_copied (w : world) (input_path : string)
    (compression : string) (compression_opts : Z) : Prop :=
  forall f_in q a d f,
    fs w !! input_path = Some (Hdf5 f_in) ->
    resolve q f_in = Some (Dataset a d f) ->
    exists f_out,
      fs (fst (compress_hdf5_file w input_path compression compression_opts))
        !! compressed_output_path input_path = Some (Hdf5 f_out) /\
      resolve q f_out = Some (Dataset a d (Some (compression, compression_opts))).

(** "The output is isomorphic to the input", for the run of the
    compressor on [input_path]. *)
Definition output_isomorphic (w : world) (input_path : string)
    (compression : string) (compression_opts : Z) : Prop :=
  forall f_in,
    fs w !! input_path = Some (Hdf5 f_in) ->
    exists f_out,
      fs (fst (compress_hdf5_file w input_path compression compression_opts))
        !! compressed_output_path input_path = Some (Hdf5 f_out) /\
      isomorphic f_out f_in.

(** Every dataset of the tree can be created under the codec and level:
    a dataset with at least one dimension when the pair is one h5py
    accepts, a scalar or null dataset when both arguments are falsy.  A
    tree without datasets is copyable under any pair. *)
Fixpoint copyable (c : string) (o : Z) (x : node) : bool :=
  match x with
  | Dataset _ d _ =>
      if filterable d then filter_accepted c o
      else negb (filter_options_given c o)
  | Group _ ms => forallb (fun nc : string * node => copyable c o (snd nc)) ms
  | _ => true
  end.

(** Every name of [pre] comes before every name of [ms]. *)
Definition names_below (pre ms : list (string * node)) : Prop :=
  forall m n, In m (map fst pre) -> In n (map fst ms) -> String.ltb m n = true.

(** What a traversal that visits the members of [x] leaves in an output
    group holding [pre]: the members the compressor writes, appended,
    when every member is copyable; an exception when one is not. *)
Definition copies_or_raises (c : string) (o : Z) (x : node) : Prop :=
  name_ordered x = true ->
  forall a0 pre,
    names_below pre (node_members x) ->
    if forallb (fun nc : string * node => copyable c o (snd nc)) (node_members x)
    then copy_all c o x (Group a0 pre) =
         (Group a0 (pre ++ node_members (recompress (c, o) x)), Ok tt)
    else snd (copy_all c o x (Group a0 pre)) = Raise.

(** What the compressor makes of the entry of the input at a name: the
    dataset or group it writes there, or nothing. *)
Definition copied (flt : string * Z) (x : node) : option node :=
  match x with
  | Dataset _ _ _ | Group _ _ => Some (recompress flt x)
  | _ => None
  end.

(** The lines the converter prints once the source exists. *)
Definition converting_message (tdms_filepath hdf5_filepath : string) : string :=
  "Converting '" +:+ tdms_filepath +:+ "' to '" +:+ hdf5_filepath +:+ "'...".


(** Induction on a tree, with the hypothesis for every member of a
    group. *)
Section node_induction.
Variable P : node -> Prop.
Hypothesis Hdataset : forall a d f, P (Dataset a d f).
Hypothesis Hgroup :
  forall a ms, Forall (fun nc => P (snd nc)) ms -> P (Group a ms).
Hypothesis Hdatatype : forall a t, P (Datatype a t).
Hypothesis Hlink : forall t, P (Link t).

Fixpoint node_members_ind (x : node) : P x :=
  match x with
  | Dataset a d f => Hdataset a d f
  | Group a ms =>
      Hgroup a ms
        ((fix go (l : list (string * node)) : Forall (fun nc => P (snd nc)) l :=
            match l with
            | [] => List.Forall_nil _
            | nc :: r => List.Forall_cons _ nc r (node_members_ind (snd nc)) (go r)
            end) ms)
  | Datatype a t => Hdatatype a t
  | Link t => Hlink t
  end.
End node_induction.

(** ** The script entry *)

(** The two paths the [__main__] block binds, lines 108-109. *)
Definition script_tdms_filepath : string :=
  "/Applications/Code/Code/tdms_convert/huge_test_file_low.tdms".



(** ** Sample containers and worlds *)

Definition sample_array : ndarray := NdArray (Some [3%nat]) "f8" [1; 2; 3].
Definition scalar_array : ndarray := NdArray (Some []) "i4" [7].
Definition null_array : ndarray := NdArray None "f8" [].

(** A dataset that is already stored under another filter, next to a
    group holding a dataset and an empty group. *)
Definition sample_tree : node :=
  Group ∅
    [("e", Dataset ∅ sample_array (Some ("lzf"%string, 0)));
     ("g", Group {["u" := AttrInt 1]}
             [("d", Dataset {["unit" := AttrStr "V"]} sample_array None);
              ("h", Group ∅ [])])].

(** A file whose only content is an attribute of the root group. *)
Definition titled_tree : node := Group {["title" := AttrStr "run"]} [].

(** A file holding one scalar dataset. *)
Definition scalar_tree : node := Group ∅ [("s", Dataset ∅ scalar_array None)].

(** A file holding one dataset with the null dataspace. *)
Definition null_tree : node := Group ∅ [("z", Dataset ∅ null_array None)].


(** A file holding a dataset under two names, a committed datatype and a
    soft link that leads nowhere. *)
Definition linked_tree : node :=
  Group ∅
    [("a", Dataset ∅ sample_array None);
     ("b", Link ["a"%string]);
     ("s", Link ["nowhere"%string]);
     ("t", Datatype ∅ "f8")].

Definition world_of (files : list (string * file)) (args : list string) : world :=
  {| fs := list_to_map files; stdout := []; handles := []; argv := args |}.

Definition sample_world : world := world_of [("a/b.h5"%string, Hdf5 sample_tree)] [].
Definition titled_world : world := world_of [("a/b.h5"%string, Hdf5 titled_tree)] [].
Definition scalar_world : world := world_of [("a/b.h5"%string, Hdf5 scalar_tree)] [].
Definition null_world : world := world_of [("a/b.h5"%string, Hdf5 null_tree)] [].
Definition linked_world : world := world_of [("a/b.h5"%string, Hdf5 linked_tree)] [].

(** A world where the output path of the compressor is already taken and
    the input is not an HDF5 container. *)
Definition raw_world : world :=
  world_of [("a/b.h5"%string, Raw [84; 68; 83; 109]);
            ("a/b_compressed.h5"%string, Hdf5 sample_tree)] [].

(** An instance of the nptdms parameters, for the sample runs: a file is
    read when it starts with the tag "TDSm", and the export makes one
    group. *)
Definition sample_parse (bytes : list Z) : option (list Z) :=
  match bytes with
  | 84 :: 68 :: 83 :: 109 :: _ => Some bytes
  | _ => None
  end.

Definition sample_export (t : list Z) : H5 unit := require_group ["data"%string].

(** An export that writes a file property on the root, one group and one
    uncompressed channel in it. *)
Definition channel_export (t : list Z) : H5 unit :=
  set_attr "name" (AttrStr "run") >>>
  require_group ["g"%string] >>>
  at_path ["g"%string] (link_member "ch" (Dataset ∅ sample_array None)) >>>
  attrs_set ["g"; "ch"]%string "unit" (AttrStr "V").

(** A world holding one TDMS file, under a ".tdms" name and under a
    ".h5" name. *)
Definition tdms_world : world :=
  world_of [("x/y.tdms"%string, Raw [84; 68; 83; 109; 1]);
            ("x/z.h5"%string, Raw [84; 68; 83; 109; 2])] [].
(** * Properties *)

(** ** Slices and os.path.splitext *)

Lemma append_cons (x : ascii) (a b : string) :
  String x a +:+ b = String x (a +:+ b).
Proof. reflexivity. Qed.

Lemma append_nil_r (s : string) : s +:+ EmptyString = s.
Proof.
  induction s as [|x r IH]; [reflexivity|].
  rewrite append_cons; now f_equal.
Qed.

Lemma length_append (a b : string) :
  String.length (a +:+ b) = (String.length a + String.length b)%nat.
Proof.
  induction a as [|x r IH]; [reflexivity|].
  rewrite append_cons; simpl; now f_equal.
Qed.

Lemma take_drop (n : nat) (s : string) : PyStr.take n s +:+ PyStr.drop n s = s.
Proof.
  revert s; induction n as [|n IH]; intros [|x r]; simpl; try reflexivity.
  rewrite append_cons; f_equal; apply IH.
Qed.

Lemma rfind_from_lower (c : ascii) (s : string) (i : Z) :
  0 <= i -> PyStr.rfind_from c s i = -1 \/ i <= PyStr.rfind_from c s i.
Proof.
  revert i; induction s as [|x r IH]; intros i Hi; simpl; [now left|].
  destruct (IH (i + 1) ltac:(lia)) as [E|E].
  - rewrite E; simpl. destruct (Ascii.eqb x c); [right; lia | now left].
  - destruct (Z.leb_spec 0 (PyStr.rfind_from c r (i + 1))); [right; lia | lia].
Qed.

(** The index [rfind] returns holds the last occurrence. *)
Lemma rfind_from_spec (c : ascii) (s : string) (i : Z) :
  0 <= i ->
  (PyStr.rfind_from c s i = -1 /\ PyStr.mem c s = false) \/
  (i <= PyStr.rfind_from c s i /\
   exists rest,
     PyStr.drop (Z.to_nat (PyStr.rfind_from c s i - i)) s = String c rest /\
     PyStr.mem c rest = false).
Proof.
  revert i; induction s as [|x r IH]; intros i Hi; simpl; [now left|].
  destruct (IH (i + 1) ltac:(lia)) as [[E M]|[L [rest [D M]]]].
  - rewrite E; simpl. destruct (Ascii.eqb_spec x c) as [->|N].
    + right; split; [lia|]. exists r. now rewrite Z.sub_diag.
    + left; now split.
  - destruct (Z.leb_spec 0 (PyStr.rfind_from c r (i + 1))); [|lia].
    right; split; [lia|]. exists rest; split; [|exact M].
    replace (Z.to_nat (PyStr.rfind_from c r (i + 1) - i))
      with (S (Z.to_nat (PyStr.rfind_from c r (i + 1) - (i + 1)))) by lia.
    exact D.
Qed.

(** Nothing after the index [rfind] returns holds the character. *)
Lemma rfind_from_after (c : ascii) (s : string) (i k : Z) :
  0 <= i -> i <= k -> PyStr.rfind_from c s i < k ->
  PyStr.mem c (PyStr.drop (Z.to_nat (k - i)) s) = false.
Proof.
  revert i; induction s as [|x r IH]; intros i Hi Hk Hlt.
  - now destruct (Z.to_nat (k - i)).
  - simpl in Hlt.
    destruct (rfind_from_lower c r (i + 1) ltac:(lia)) as [E|E].
    + rewrite E in Hlt; simpl in Hlt.
      destruct (Ascii.eqb_spec x c) as [->|N].
      * replace (Z.to_nat (k - i)) with (S (Z.to_nat (k - (i + 1)))) by lia.
        simpl. apply IH; lia.
      * destruct (Z.eq_dec k i) as [->|Hne].
        -- rewrite Z.sub_diag; simpl.
           destruct (Ascii.eqb_spec x c); [contradiction|].
           destruct (rfind_from_spec c r (i + 1) ltac:(lia)) as [[_ M]|[L _]];
             [exact M | lia].
        -- replace (Z.to_nat (k - i)) with (S (Z.to_nat (k - (i + 1)))) by lia.
           simpl. apply IH; lia.
    + destruct (Z.leb_spec 0 (PyStr.rfind_from c r (i + 1))); [|lia].
      replace (Z.to_nat (k - i)) with (S (Z.to_nat (k - (i + 1)))) by lia.
      simpl. apply IH; lia.
Qed.

Lemma splitext_loop_spec (p : string) (n : nat) (i : Z) :
  PyStr.rfind sep p < PyStr.rfind extsep p ->
  let r := splitext_loop p (PyStr.rfind extsep p) n i in
  fst r +:+ snd r = p /\ is_extension (snd r).
Proof.
  intros Hlt; revert i; induction n as [|n IH]; intros i; simpl.
  - split; [apply append_nil_r | now left].
  - destruct (i <? PyStr.rfind extsep p).
    2:{ split; [apply append_nil_r | now left]. }
    destruct (String.eqb (PyStr.slice1 p i) (String extsep "")); [apply IH|].
    simpl; split; [apply take_drop|].
    unfold PyStr.rfind in *.
    destruct (rfind_from_lower sep p 0 ltac:(lia)) as [Es|Es];
    destruct (rfind_from_spec extsep p 0 ltac:(lia)) as [[E _]|[L [rest [D M]]]];
      try lia.
    all: right; exists rest; unfold PyStr.slice_from;
      rewrite Z.sub_0_r in D; rewrite D; split; [reflexivity|split; [exact M|]].
    all: pose proof (rfind_from_after sep p 0 (PyStr.rfind_from extsep p 0)
                       ltac:(lia) ltac:(lia) ltac:(lia)) as A;
      rewrite Z.sub_0_r, D in A; exact A.
Qed.

(** [splitext] cuts its argument in two, and the second part is an
    extension. *)
Lemma splitext_spec (p : string) :
  fst (splitext p) +:+ snd (splitext p) = p /\ is_extension (snd (splitext p)).
Proof.
  unfold splitext.
  destruct (Z.ltb_spec (PyStr.rfind sep p) (PyStr.rfind extsep p)) as [H|H].
  - now apply splitext_loop_spec.
  - simpl; split; [apply append_nil_r | now left].
Qed.

(** *** The two cases of a path: a name with an extension, a name without *)

Lemma append_assoc (a b c : string) : (a +:+ b) +:+ c = a +:+ b +:+ c.
Proof.
  induction a as [|x r IH]; [reflexivity|].
  rewrite !append_cons. now f_equal.
Qed.

Lemma mem_append (c : ascii) (a b : string) :
  PyStr.mem c (a +:+ b) = PyStr.mem c a || PyStr.mem c b.
Proof.
  induction a as [|x r IH]; [reflexivity|].
  rewrite append_cons; simpl. rewrite IH. now rewrite orb_assoc.
Qed.

Lemma rfind_from_notin (c : ascii) (s : string) (i : Z) :
  PyStr.mem c s = false -> PyStr.rfind_from c s i = -1.
Proof.
  revert i; induction s as [|x r IH]; intros i H; [reflexivity|].
  simpl in *. apply orb_false_iff in H as [Hx Hr].
  now rewrite (IH _ Hr), Hx.
Qed.

Lemma rfind_from_app_notin (c : ascii) (s1 s2 : string) (i : Z) :
  PyStr.mem c s2 = false ->
  PyStr.rfind_from c (s1 +:+ s2) i = PyStr.rfind_from c s1 i.
Proof.
  intros H; revert i; induction s1 as [|x r IH]; intros i.
  - now apply rfind_from_notin.
  - rewrite append_cons; simpl. now rewrite IH.
Qed.

Lemma rfind_from_app_last (c : ascii) (s1 s2 : string) (i : Z) :
  0 <= i -> PyStr.mem c s2 = false ->
  PyStr.rfind_from c (s1 +:+ String c s2) i = i + Z.of_nat (String.length s1).
Proof.
  intros Hi H; revert i Hi; induction s1 as [|x r IH]; intros i Hi.
  - simpl. rewrite (rfind_from_notin c s2 (i + 1) H); simpl.
    rewrite Ascii.eqb_refl. lia.
  - rewrite append_cons. cbn [PyStr.rfind_from String.length].
    rewrite IH by lia.
    destruct (Z.leb_spec 0 (i + 1 + Z.of_nat (String.length r))); lia.
Qed.

Lemma rfind_from_upper (c : ascii) (s : string) (i : Z) :
  0 <= i -> PyStr.rfind_from c s i < i + Z.of_nat (String.length s) \/
            PyStr.rfind_from c s i = -1.
Proof.
  revert i; induction s as [|x r IH]; intros i Hi; [now right|].
  cbn [PyStr.rfind_from String.length].
  destruct (IH (i + 1) ltac:(lia)) as [L|E].
  - destruct (Z.leb_spec 0 (PyStr.rfind_from c r (i + 1))); [left; lia|].
    destruct (Ascii.eqb x c); [left; lia | now right].
  - rewrite E; simpl. destruct (Ascii.eqb x c); [left; lia | now right].
Qed.

Lemma take_app_length (s1 s2 : string) :
  PyStr.take (String.length s1) (s1 +:+ s2) = s1.
Proof.
  induction s1 as [|x r IH]; [now destruct s2|].
  rewrite append_cons; simpl. now f_equal.
Qed.

Lemma drop_app_length (s1 s2 : string) :
  PyStr.drop (String.length s1) (s1 +:+ s2) = s2.
Proof.
  induction s1 as [|x r IH]; [now destruct s2|].
  rewrite append_cons; simpl. exact IH.
Qed.

Lemma drop_succ (n : nat) (s : string) (x : ascii) (t : string) :
  PyStr.drop n s = String x t -> PyStr.drop (S n) s = t.
Proof.
  revert s; induction n as [|n IH]; intros s H.
  - simpl in H. now subst s.
  - destruct s as [|y r]; [discriminate|]. simpl in H.
    change (PyStr.drop (S (S n)) (String y r)) with (PyStr.drop (S n) r).
    now apply IH.
Qed.

(** The loop of [_splitext] on the stretch [seg] between the start of
    the file name and the last dot. *)
Lemma splitext_loop_segment (p : string) (d : Z) (seg : string) :
  forall i rest,
    0 <= i -> i + Z.of_nat (String.length seg) = d ->
    PyStr.drop (Z.to_nat i) p = seg +:+ rest ->
    splitext_loop p d (String.length seg) i =
    if all_dots seg then (p, EmptyString)
    else (PyStr.slice_to p d, PyStr.slice_from p d).
Proof.
  induction seg as [|x r IH]; intros i rest Hi Hd Hdrop; [reflexivity|].
  cbn [String.length splitext_loop all_dots].
  cbn [String.length] in Hd.
  destruct (Z.ltb_spec i d); [|lia].
  unfold PyStr.slice1. rewrite Hdrop, append_cons.
  change (PyStr.take 1 (String x (r +:+ rest))) with (String x EmptyString).
  change (String.eqb (String x EmptyString) (String extsep EmptyString))
    with (if Ascii.eqb x extsep then true else false).
  destruct (Ascii.eqb x extsep); simpl; [|reflexivity].
  apply (IH (i + 1) rest); [lia | lia |].
  replace (Z.to_nat (i + 1)) with (S (Z.to_nat i)) by lia.
  apply (drop_succ _ _ x). now rewrite Hdrop, append_cons.
Qed.

Lemma rfind_sep_dir (dir tail : string) :
  is_dir_prefix dir -> PyStr.mem sep tail = false ->
  PyStr.rfind sep (dir +:+ tail) + 1 = Z.of_nat (String.length dir).
Proof.
  intros Hdir Htail. unfold PyStr.rfind.
  rewrite rfind_from_app_notin by exact Htail.
  destruct Hdir as [->|[d ->]]; [reflexivity|].
  rewrite rfind_from_app_last by (reflexivity || lia).
  rewrite length_append. simpl. lia.
Qed.

(** A file name with a dot: the part after the last dot is the
    extension, unless nothing but dots comes before it in the name. *)
Lemma splitext_with_extension (dir stem ext : string) :
  is_dir_prefix dir ->
  PyStr.mem sep stem = false ->
  PyStr.mem extsep ext = false -> PyStr.mem sep ext = false ->
  splitext (dir +:+ stem +:+ String extsep ext) =
  if all_dots stem then (dir +:+ stem +:+ String extsep ext, EmptyString)
  else (dir +:+ stem, String extsep ext).
Proof.
  intros Hdir Hstem Hext Hsep. unfold splitext.
  assert (Hs : PyStr.rfind sep (dir +:+ stem +:+ String extsep ext) + 1
               = Z.of_nat (String.length dir)).
  { apply rfind_sep_dir; [exact Hdir|].
    rewrite mem_append, Hstem. simpl. exact Hsep. }
  assert (Hd : PyStr.rfind extsep (dir +:+ stem +:+ String extsep ext)
               = Z.of_nat (String.length (dir +:+ stem))).
  { unfold PyStr.rfind. rewrite <- append_assoc.
    rewrite rfind_from_app_last by (lia || exact Hext). lia. }
  rewrite Hd. rewrite length_append in *.
  destruct (Z.ltb_spec (PyStr.rfind sep (dir +:+ stem +:+ String extsep ext))
              (Z.of_nat (String.length dir + String.length stem))); [|lia].
  rewrite Hs.
  replace (Z.to_nat (Z.of_nat (String.length dir + String.length stem)
                     - Z.of_nat (String.length dir)))
    with (String.length stem) by lia.
  rewrite (splitext_loop_segment _ _ stem _ (String extsep ext)).
  - destruct (all_dots stem); [reflexivity|].
    unfold PyStr.slice_to, PyStr.slice_from.
    rewrite Nat2Z.id, <- length_append, <- append_assoc.
    now rewrite take_app_length, drop_app_length.
  - lia.
  - lia.
  - rewrite Nat2Z.id. apply drop_app_length.
Qed.

(** A file name without a dot has no extension. *)
Lemma splitext_without_extension (dir name : string) :
  is_dir_prefix dir ->
  PyStr.mem sep name = false -> PyStr.mem extsep name = false ->
  splitext (dir +:+ name) = (dir +:+ name, EmptyString).
Proof.
  intros Hdir Hsep Hdot. unfold splitext.
  pose proof (rfind_sep_dir dir name Hdir Hsep) as Hs.
  assert (Hd : PyStr.rfind extsep (dir +:+ name) < Z.of_nat (String.length dir)).
  { unfold PyStr.rfind. rewrite rfind_from_app_notin by exact Hdot.
    destruct Hdir as [->|[d ->]]; [simpl; lia|].
    rewrite rfind_from_app_notin by reflexivity.
    rewrite length_append; simpl.
    destruct (rfind_from_upper extsep d 0 ltac:(lia)); lia. }
  destruct (Z.ltb_spec (PyStr.rfind sep (dir +:+ name))
              (PyStr.rfind extsep (dir +:+ name))); [lia | reflexivity].
Qed.

(** ** Sample splits *)

Example splitext_tdms : splitext "x/y.tdms" = ("x/y", ".tdms")%string.
Proof. reflexivity. Qed.

Example splitext_dotfile : splitext "a.b/.bashrc" = ("a.b/.bashrc", "")%string.
Proof. reflexivity. Qed.

Example splitext_dots : splitext "dir/..a.tar.gz" = ("dir/..a.tar", ".gz")%string.
Proof. reflexivity. Qed.

Example splitext_noext : splitext "a.b/c" = ("a.b/c", "")%string.
Proof. reflexivity. Qed.

(** ** Members of a group *)

Lemma lookup_member_app (n : string) (ms1 ms2 : list (string * node)) :
  lookup_member n (ms1 ++ ms2) =
  match lookup_member n ms1 with
  | Some c => Some c
  | None => lookup_member n ms2
  end.
Proof.
  induction ms1 as [|[m c] r IH]; simpl; [reflexivity|].
  destruct (String.eqb m n); [reflexivity | exact IH].
Qed.

Lemma lookup_member_None (n : string) (ms : list (string * node)) :
  lookup_member n ms = None <-> ~ In n (map fst ms).
Proof.
  induction ms as [|[m c] r IH]; simpl; [tauto|].
  destruct (String.eqb_spec m n) as [->|N].
  - split; [discriminate | intros H; exfalso; apply H; now left].
  - rewrite IH; tauto.
Qed.

Lemma lookup_member_head (n : string) (c : node) (r : list (string * node)) :
  lookup_member n ((n, c) :: r) = Some c.
Proof. simpl. now rewrite String.eqb_refl. Qed.

Lemma replace_member_same (n : string) (c : node) (ms : list (string * node)) :
  lookup_member n ms = Some c -> replace_member n c ms = ms.
Proof.
  induction ms as [|[m d] r IH]; simpl; [reflexivity|].
  destruct (String.eqb_spec m n) as [->|N]; intros H.
  - now inversion H.
  - now rewrite IH.
Qed.

Lemma replace_member_app (n : string) (c c' : node)
    (pre r : list (string * node)) :
  lookup_member n pre = None ->
  replace_member n c' (pre ++ (n, c) :: r) = pre ++ (n, c') :: r.
Proof.
  induction pre as [|[m d] q IH]; simpl.
  - now rewrite String.eqb_refl.
  - destruct (String.eqb m n); [discriminate|].
    intros H; now rewrite IH.
Qed.

Lemma lookup_replace_member (n : string) (c' : node) (ms : list (string * node)) :
  lookup_member n ms <> None ->
  lookup_member n (replace_member n c' ms) = Some c'.
Proof.
  induction ms as [|[m d] r IH]; simpl; [congruence|].
  destruct (String.eqb_spec m n) as [->|N]; intros H; simpl.
  - now rewrite String.eqb_refl.
  - destruct (String.eqb_spec m n); [contradiction | now apply IH].
Qed.

Lemma replace_replace_member (n : string) (c' c'' : node)
    (ms : list (string * node)) :
  replace_member n c'' (replace_member n c' ms) = replace_member n c'' ms.
Proof.
  induction ms as [|[m d] r IH]; simpl; [reflexivity|].
  destruct (String.eqb_spec m n) as [->|N]; simpl.
  - now rewrite String.eqb_refl.
  - destruct (String.eqb_spec m n); [contradiction | now rewrite IH].
Qed.

(** ** The monad of h5py calls *)

Lemma foreach_app {A} (l1 l2 : list A) (body : A -> H5 unit) (x : node) :
  foreach (l1 ++ l2) body x = (foreach l1 body >>> foreach l2 body) x.
Proof.
  revert x; induction l1 as [|a r IH]; intros x; simpl; [reflexivity|].
  unfold bind in *. destruct (body a x) as [x' [[]|]]; [apply IH | reflexivity].
Qed.

Lemma foreach_map {A B} (h : A -> B) (l : list A) (body : B -> H5 unit)
    (x : node) :
  foreach (map h l) body x = foreach l (fun a => body (h a)) x.
Proof.
  revert x; induction l as [|a r IH]; intros x; simpl; [reflexivity|].
  unfold bind. destruct (body (h a) x) as [x' [[]|]]; [apply IH | reflexivity].
Qed.

Lemma has_member_descend {A} (n : string) (f : H5 A) (x : node) :
  has_member n x -> has_member n (fst (descend n f x)).
Proof.
  destruct x as [a d g|a ms|a t|t]; simpl; try tauto.
  intros H. destruct (lookup_member n ms) as [c|] eqn:E; [|congruence].
  destruct (f c) as [c' r]; simpl.
  rewrite lookup_replace_member; congruence.
Qed.

(** Two calls below the same member are one descent. *)
Lemma descend_bind {A B} (n : string) (f : H5 A) (g : A -> H5 B) (x : node) :
  bind (descend n f) (fun a => descend n (g a)) x = descend n (bind f g) x.
Proof.
  destruct x as [a d h|a ms|a t|t]; try reflexivity.
  unfold bind, descend.
  destruct (lookup_member n ms) as [c|] eqn:E; [|reflexivity].
  destruct (f c) as [c' [v|]]; [|reflexivity].
  rewrite lookup_replace_member by congruence.
  destruct (g v c') as [c'' r]. now rewrite replace_replace_member.
Qed.

Lemma descend_ret (n : string) (x : node) :
  has_member n x -> descend n (ret tt) x = ret tt x.
Proof.
  destruct x as [a d h|a ms|a t|t]; simpl; try tauto.
  destruct (lookup_member n ms) as [c|] eqn:E; [|congruence].
  intros _. unfold ret. now rewrite replace_member_same.
Qed.

Lemma descend_raise {A} (n : string) (x : node) :
  has_member n x -> descend n (@raise A) x = raise x.
Proof.
  destruct x as [a d h|a ms|a t|t]; simpl; try tauto.
  destruct (lookup_member n ms) as [c|] eqn:E; [|congruence].
  intros _. unfold raise. now rewrite replace_member_same.
Qed.

(** A loop whose every step works below the member [n] is a loop below
    [n]. *)
Lemma foreach_descend {A} (n : string) (l : list A) (f g : A -> H5 unit) :
  (forall a x, In a l -> has_member n x -> g a x = descend n (f a) x) ->
  forall x, has_member n x -> foreach l g x = descend n (foreach l f) x.
Proof.
  induction l as [|a r IH]; intros Hstep x Hx; simpl.
  - now rewrite descend_ret.
  - rewrite <- descend_bind. unfold bind.
    rewrite (Hstep a x) by (simpl; auto || exact Hx).
    pose proof (has_member_descend n (f a) x Hx) as Hx'.
    destruct (descend n (f a) x) as [x' [[]|]]; [|reflexivity].
    apply IH; [|exact Hx'].
    intros b y Hb Hy. apply Hstep; [now right | exact Hy].
Qed.

Lemma bind_raise {A B} (m : H5 A) (k : A -> H5 B) (x : node) :
  snd (m x) = Raise -> snd (bind m k x) = Raise.
Proof.
  unfold bind. destruct (m x) as [x' [a|]]; simpl; [discriminate | reflexivity].
Qed.

Lemma bind_descend {A B} (n : string) (f f' : H5 A) (g g' : A -> H5 B)
    (x : node) :
  has_member n x ->
  f' x = descend n f x ->
  (forall a y, has_member n y -> g' a y = descend n (g a) y) ->
  bind f' g' x = descend n (bind f g) x.
Proof.
  intros Hx Hf Hg. rewrite <- descend_bind. unfold bind. rewrite Hf.
  pose proof (has_member_descend n f x Hx) as Hx'.
  destruct (descend n f x) as [x' [v|]]; [now apply Hg | reflexivity].
Qed.

(** ** Names in increasing order *)

Lemma ltb_irrefl (n : string) : String.ltb n n = false.
Proof.
  unfold String.ltb.
  pose proof (String.compare_antisym n n) as E.
  destruct (String.compare n n); simpl in E; congruence.
Qed.

Lemma ltb_asym (m n : string) : String.ltb m n = true -> String.ltb n m = false.
Proof.
  unfold String.ltb. rewrite (String.compare_antisym n m).
  now destruct (String.compare m n).
Qed.

(** A name that comes after every name of the list goes last. *)
Lemma insert_by_name_last {A} (n : string) (a : A) (l : list (string * A)) :
  (forall m, In m (map fst l) -> String.ltb m n = true) ->
  insert_by_name n a l = l ++ [(n, a)].
Proof.
  induction l as [|[m b] r IH]; intros H; simpl; [reflexivity|].
  rewrite (ltb_asym m n) by (apply H; now left).
  rewrite IH; [reflexivity|]. intros k Hk. apply H. now right.
Qed.

(** Sorting a list that is in order changes nothing. *)
Lemma sort_by_name_ordered {A} (l : list (string * A)) :
  ordered_names (map fst l) = true -> sort_by_name l = l.
Proof.
  induction l as [|[n a] r IH]; intros H; [reflexivity|].
  simpl in H. apply andb_true_iff in H as [Hn Hr].
  unfold sort_by_name in *. simpl. rewrite (IH Hr).
  destruct r as [|[m b] r']; [reflexivity|].
  simpl in Hn. apply andb_true_iff in Hn as [Hm _].
  simpl. now rewrite Hm.
Qed.

Lemma names_below_nil (ms : list (string * node)) : names_below [] ms.
Proof. intros m n []. Qed.

(** Once the first member is written, the rest still comes after what is
    there. *)
Lemma names_below_step (pre r : list (string * node)) (n : string)
    (x c : node) :
  names_below pre ((n, x) :: r) ->
  forallb (String.ltb n) (map fst r) = true ->
  names_below (pre ++ [(n, c)]) r.
Proof.
  intros H Hn m k Hm Hk. rewrite map_app in Hm. apply in_app_iff in Hm as [Hm|Hm].
  - apply H; [exact Hm | now right].
  - simpl in Hm. destruct Hm as [<-|[]].
    rewrite forallb_forall in Hn. now apply Hn.
Qed.

Lemma names_below_rest (pre r : list (string * node)) (nc : string * node) :
  names_below pre (nc :: r) -> names_below pre r.
Proof. intros H m k Hm Hk. apply H; [exact Hm | now right]. Qed.

(** ** Copying attributes *)

Lemma assign_all_lookup (l : list (string * attr_value))
    (a : gmap string attr_value) (k : string) (v : attr_value) :
  NoDup (map fst l) ->
  assign_all l a !! k = Some v <->
  In (k, v) l \/ (~ In k (map fst l) /\ a !! k = Some v).
Proof.
  revert a; induction l as [|[k0 v0] r IH]; intros a Hnd; simpl.
  - tauto.
  - apply NoDup_cons in Hnd as [Hk0 Hnd].
    rewrite list_elem_of_In in Hk0.
    unfold assign_all in *; simpl. rewrite (IH _ Hnd).
    destruct (decide (k0 = k)) as [->|N].
    + rewrite lookup_insert_eq. split.
      * intros [H|[_ H]]; [|left; left; congruence].
        exfalso; apply Hk0. apply in_map_iff. now exists (k, v).
      * intros [[H|H]|[H _]]; [right; split; [exact Hk0|congruence] | | tauto].
        exfalso; apply Hk0. apply in_map_iff. now exists (k, v).
    + rewrite lookup_insert_ne by exact N. split.
      * intros [H|[H1 H2]]; [now left; right | right; split; [|exact H2]].
        intros [E|E]; [contradiction | tauto].
      * intros [[H|H]|[H1 H2]]; [congruence | now left | right; tauto].
Qed.

(** Assigning every item of a mapping to an empty mapping rebuilds it. *)
Lemma assign_all_items (a : gmap string attr_value) :
  assign_all (map_to_list a) ∅ = a.
Proof.
  apply map_eq; intros k. apply option_eq; intros v.
  rewrite assign_all_lookup by apply NoDup_fst_map_to_list.
  rewrite lookup_empty, <- list_elem_of_In, elem_of_map_to_list.
  split; [intros [H|[_ H]]; [exact H | discriminate] | now left].
Qed.

Lemma foreach_set_attr (l : list (string * attr_value)) (x : node) :
  (forall t, x <> Link t) ->
  foreach l (fun kv => set_attr (fst kv) (snd kv)) x =
  (with_attrs (assign_all l (node_attrs x)) x, Ok tt).
Proof.
  revert x; induction l as [|[k v] r IH]; intros x Hx; simpl.
  - now destruct x.
  - unfold bind. destruct x as [a d f|a ms|a t|t]; simpl;
      try (rewrite IH by discriminate; reflexivity).
    now destruct (Hx t).
Qed.

(** The attribute loop of [copy_item], run on the handle of a member
    that was just created empty. *)
Lemma copy_attrs_member (n : string) (a a0 : gmap string attr_value)
    (c : node) (pre : list (string * node)) :
  lookup_member n pre = None ->
  node_attrs c = ∅ -> (forall t, c <> Link t) ->
  copy_attrs [n] a (Group a0 (pre ++ [(n, c)])) =
  (Group a0 (pre ++ [(n, with_attrs a c)]), Ok tt).
Proof.
  intros Hfresh Hempty Hc. unfold copy_attrs.
  rewrite (foreach_descend n _ (fun kv => set_attr (fst kv) (snd kv))).
  - unfold descend. rewrite lookup_member_app, Hfresh, lookup_member_head.
    rewrite foreach_set_attr by exact Hc. rewrite Hempty, assign_all_items.
    now rewrite replace_member_app.
  - reflexivity.
  - simpl. rewrite lookup_member_app, Hfresh, lookup_member_head. discriminate.
Qed.

(** ** The traversal of compress_hdf5_file *)

Lemma bind_ok {A B} (m : H5 A) (k : A -> H5 B) (x x' : node) (a : A) :
  m x = (x', Ok a) -> bind m k x = k a x'.
Proof. intros E. unfold bind. now rewrite E. Qed.

Lemma rsplit_cons (n : string) (q : path) :
  q <> [] ->
  exists parent last,
    rsplit q = Some (parent, last) /\ rsplit (n :: q) = Some (n :: parent, last).
Proof.
  revert n; induction q as [|m r IH]; intros n Hq; [congruence|].
  destruct r as [|m' r'].
  - exists [], m; split; reflexivity.
  - destruct (IH m ltac:(discriminate)) as [parent [last [E1 E2]]].
    exists (m :: parent), last. split; [exact E2|].
    change (rsplit (n :: m :: m' :: r'))
      with (match rsplit (m :: m' :: r') with
            | Some (q, l) => Some (n :: q, l)
            | None => None
            end).
    now rewrite E2.
Qed.

Lemma require_group_cons (n : string) (q : path) (x : node) :
  has_member n x -> require_group (n :: q) x = descend n (require_group q) x.
Proof.
  destruct x as [a d f|a ms|a t|t]; simpl; try tauto.
  destruct (lookup_member n ms); [reflexivity | congruence].
Qed.

Lemma copy_attrs_cons (n : string) (q : path) (a : gmap string attr_value)
    (x : node) :
  has_member n x -> copy_attrs (n :: q) a x = descend n (copy_attrs q a) x.
Proof.
  intros Hx. unfold copy_attrs.
  now apply (foreach_descend n _ (fun kv => attrs_set q (fst kv) (snd kv))).
Qed.

Lemma create_dataset_cons (n : string) (q : path) (d : ndarray)
    (c : string) (o : Z) (x : node) :
  q <> [] -> has_member n x ->
  create_dataset (n :: q) d c o x = descend n (create_dataset q d c o) x.
Proof.
  intros Hq Hx. unfold create_dataset.
  destruct (rsplit_cons n q Hq) as [parent [last [E1 E2]]].
  rewrite E1, E2.
  apply bind_descend; [exact Hx | now apply require_group_cons |].
  intros _ y Hy.
  destruct (storage_filter d c o); [reflexivity | now rewrite descend_raise].
Qed.

(** A callback on a name below the member [n] works inside [n]. *)
Lemma copy_item_cons (c : string) (o : Z) (n : string) (q : path)
    (obj x : node) :
  q <> [] -> has_member n x ->
  copy_item c o (n :: q) obj x = descend n (copy_item c o q obj) x.
Proof.
  intros Hq Hx. destruct obj as [a d f|a ms|a t|t]; simpl.
  - apply bind_descend; [exact Hx | now apply create_dataset_cons |].
    intros _ y Hy. now apply copy_attrs_cons.
  - apply bind_descend; [exact Hx | now apply require_group_cons |].
    intros _ y Hy. now apply copy_attrs_cons.
  - now rewrite descend_ret.
  - now rewrite descend_ret.
Qed.

Lemma visit_group (a : gmap string attr_value) (ms : list (string * node)) :
  visit (Group a ms) =
  concat
    (map snd
       (sort_by_name
          (map (fun nc : string * node =>
                  (fst nc, visit_member (fst nc) (snd nc) (visit (snd nc))))
               ms))).
Proof. reflexivity. Qed.

(** On a group whose members are listed in order, the traversal goes
    through the list. *)
Lemma visit_ordered (a : gmap string attr_value) (ms : list (string * node)) :
  ordered_names (map fst ms) = true ->
  visit (Group a ms) =
  flat_map (fun nc => visit_member (fst nc) (snd nc) (visit (snd nc))) ms.
Proof.
  intros H. rewrite visit_group, sort_by_name_ordered.
  - clear H. induction ms as [|nc r IH]; [reflexivity|].
    simpl. now rewrite IH.
  - rewrite map_map. exact H.
Qed.

Lemma visit_cons (a : gmap string attr_value) (n : string) (x : node)
    (r : list (string * node)) :
  ordered_names (map fst ((n, x) :: r)) = true ->
  visit (Group a ((n, x) :: r)) = visit_member n x (visit x) ++ visit (Group a r).
Proof.
  intros H. rewrite (visit_ordered a _ H).
  simpl in H. apply andb_true_iff in H as [_ H].
  now rewrite (visit_ordered a _ H).
Qed.

Lemma visit_member_names_nonempty (n : string) (c : node)
    (below : list (path * node)) (q : path) (obj : node) :
  In (q, obj) (visit_member n c below) -> q <> [].
Proof.
  assert (H : In (q, obj)
                (([n], c) :: map (fun qc : path * node => (n :: fst qc, snd qc)) below)
              -> q <> []).
  { intros [H|H]; [inversion H; discriminate|].
    apply in_map_iff in H as [[q' o'] [H _]]. inversion H; discriminate. }
  destruct c; simpl; try exact H. tauto.
Qed.

Lemma visit_names_nonempty (x : node) (q : path) (obj : node) :
  name_ordered x = true -> In (q, obj) (visit x) -> q <> [].
Proof.
  destruct x as [a d f|a ms|a t|t]; try (simpl; tauto).
  intros Hu. cbn [name_ordered] in Hu. apply andb_true_iff in Hu as [Hord _].
  rewrite (visit_ordered a ms Hord).
  rewrite in_flat_map. intros [[n c] [_ H]].
  now apply visit_member_names_nonempty in H.
Qed.

(** What [fill_dcpl] decides, in terms of the vocabulary. *)
Lemma storage_filter_copyable (c : string) (o : Z)
    (a : gmap string attr_value) (d : ndarray) (f : option (string * Z)) :
  storage_filter d c o =
  if copyable c o (Dataset a d f)
  then Some (if filterable d then Some (c, o) else None)
  else None.
Proof.
  unfold storage_filter. simpl.
  destruct (filterable d), (filter_accepted c o), (filter_options_given c o);
    reflexivity.
Qed.

(** The callback on a direct member that comes after the members
    written so far: a group is appended empty, with its attributes. *)
Lemma copy_item_fresh_group (c : string) (o : Z) (n : string)
    (a a0 : gmap string attr_value) (ms pre : list (string * node)) :
  (forall m, In m (map fst pre) -> String.ltb m n = true) ->
  copy_item c o [n] (Group a ms) (Group a0 pre) =
  (Group a0 (pre ++ [(n, Group a [])]), Ok tt).
Proof.
  intros Hlast.
  assert (Hfresh : lookup_member n pre = None).
  { apply lookup_member_None. intros Hin.
    pose proof (Hlast n Hin) as E. rewrite ltb_irrefl in E. discriminate. }
  simpl. unfold bind; simpl. rewrite Hfresh.
  rewrite insert_by_name_last by exact Hlast.
  now rewrite copy_attrs_member.
Qed.

(** A dataset that can be stored is appended, with its payload, its
    attributes and the filter [fill_dcpl] decided. *)
Lemma copy_item_fresh_dataset (c : string) (o : Z) (n : string)
    (a a0 : gmap string attr_value) (d : ndarray) (f f' : option (string * Z))
    (pre : list (string * node)) :
  storage_filter d c o = Some f' ->
  (forall m, In m (map fst pre) -> String.ltb m n = true) ->
  copy_item c o [n] (Dataset a d f) (Group a0 pre) =
  (Group a0 (pre ++ [(n, Dataset a d f')]), Ok tt).
Proof.
  intros Hf Hlast.
  assert (Hfresh : lookup_member n pre = None).
  { apply lookup_member_None. intros Hin.
    pose proof (Hlast n Hin) as E. rewrite ltb_irrefl in E. discriminate. }
  simpl. unfold bind, create_dataset; simpl. unfold bind; simpl.
  rewrite Hf; simpl. rewrite Hfresh.
  rewrite insert_by_name_last by exact Hlast.
  now rewrite copy_attrs_member.
Qed.

(** [copy_item] on a dataset whose dataspace cannot take the filter
    options raises before anything is linked. *)
Lemma copy_item_dataset_refused (c : string) (o : Z) (n : string)
    (a a0 : gmap string attr_value) (d : ndarray) (f : option (string * Z))
    (pre : list (string * node)) :
  storage_filter d c o = None ->
  copy_item c o [n] (Dataset a d f) (Group a0 pre) = (Group a0 pre, Raise).
Proof.
  intros H. simpl. unfold bind, create_dataset; simpl. unfold bind; simpl.
  now rewrite H.
Qed.

(** One member of the input and what is below it. *)
Lemma copy_member (c : string) (o : Z) (n : string) (x : node)
    (a0 : gmap string attr_value) (pre : list (string * node)) :
  copies_or_raises c o x -> name_ordered x = true ->
  (forall m, In m (map fst pre) -> String.ltb m n = true) ->
  if copyable c o x
  then foreach (visit_member n x (visit x))
         (fun no => copy_item c o (fst no) (snd no)) (Group a0 pre) =
       (Group a0 (pre ++ copied_member (recompress (c, o)) (n, x)), Ok tt)
  else snd (foreach (visit_member n x (visit x))
              (fun no => copy_item c o (fst no) (snd no)) (Group a0 pre)) = Raise.
Proof.
  intros HP Hu Hlast.
  assert (Hfresh : lookup_member n pre = None).
  { apply lookup_member_None. intros Hin.
    pose proof (Hlast n Hin) as E. rewrite ltb_irrefl in E. discriminate. }
  destruct x as [a d f|a msx|a t|t].
  - (* a dataset: created under the filter, or refused *)
    change (visit_member n (Dataset a d f) (visit (Dataset a d f)))
      with [([n], Dataset a d f)].
    cbn [foreach fst snd].
    pose proof (storage_filter_copyable c o a d f) as Hf.
    destruct (copyable c o (Dataset a d f)).
    + rewrite (bind_ok _ _ _ _ _
                 (copy_item_fresh_dataset c o n a a0 d f _ pre Hf Hlast)).
      reflexivity.
    + apply bind_raise. now rewrite copy_item_dataset_refused.
  - (* a group: created, then its members are visited inside it *)
    change (visit_member n (Group a msx) (visit (Group a msx)))
      with (([n], Group a msx)
            :: map (fun qc : path * node => (n :: fst qc, snd qc))
                 (visit (Group a msx))).
    cbn [foreach fst snd].
    rewrite (bind_ok _ _ _ _ _ (copy_item_fresh_group c o n a a0 msx pre Hlast)).
    rewrite foreach_map. cbn [fst snd].
    rewrite (foreach_descend n _ (fun no => copy_item c o (fst no) (snd no))).
    + fold (copy_all c o (Group a msx)).
      unfold descend. rewrite lookup_member_app, Hfresh, lookup_member_head.
      specialize (HP Hu a [] (names_below_nil _)).
      cbn [node_members copyable] in *.
      destruct (forallb (fun nc => copyable c o (snd nc)) msx).
      * rewrite HP. rewrite replace_member_app by exact Hfresh. reflexivity.
      * destruct (copy_all c o (Group a msx) (Group a [])) as [x' r']. exact HP.
    + intros [q obj] y Hin Hy. cbn [fst snd].
      apply copy_item_cons; [|exact Hy].
      now apply (visit_names_nonempty (Group a msx) q obj).
    + simpl. rewrite lookup_member_app, Hfresh, lookup_member_head. discriminate.
  - (* a committed datatype: visited, and matched by no branch *)
    simpl. now rewrite app_nil_r.
  - (* a link: not visited *)
    simpl. now rewrite app_nil_r.
Qed.

Lemma copy_or_raise_list (c : string) (o : Z) (ms : list (string * node)) :
  Forall (fun nc => copies_or_raises c o (snd nc)) ms ->
  ordered_names (map fst ms) = true ->
  forallb (fun nc => name_ordered (snd nc)) ms = true ->
  forall a0 pre,
    names_below pre ms ->
    if forallb (fun nc => copyable c o (snd nc)) ms
    then foreach (visit (Group a0 ms)) (fun no => copy_item c o (fst no) (snd no))
           (Group a0 pre) =
         (Group a0 (pre ++ flat_map (copied_member (recompress (c, o))) ms), Ok tt)
    else snd (foreach (visit (Group a0 ms))
                (fun no => copy_item c o (fst no) (snd no)) (Group a0 pre)) = Raise.
Proof.
  induction 1 as [|[n x] r HP _ IH]; intros Hord Hu a0 pre Hbelow.
  - simpl. now rewrite app_nil_r.
  - rewrite (visit_cons a0 n x r Hord), foreach_app.
    simpl in Hord, Hu, HP.
    apply andb_true_iff in Hord as [Hn Hord].
    apply andb_true_iff in Hu as [Hux Hur].
    assert (Hlast : forall m, In m (map fst pre) -> String.ltb m n = true).
    { intros m Hm. apply Hbelow; [exact Hm | now left]. }
    pose proof (copy_member c o n x a0 pre HP Hux Hlast) as Hx.
    cbn [forallb flat_map fst snd].
    destruct (copyable c o x); cbn [andb].
    + rewrite (bind_ok _ _ _ _ _ Hx).
      assert (Hrest : names_below (pre ++ copied_member (recompress (c, o)) (n, x)) r).
      { unfold copied_member; cbn [fst snd].
        destruct x; try (now apply (names_below_step pre r n (Link []))).
        all: rewrite app_nil_r; now apply (names_below_rest pre r (n, Link [])). }
      specialize (IH Hord Hur a0 _ Hrest).
      rewrite <- app_assoc in IH. exact IH.
    + now apply bind_raise.
Qed.

Lemma copy_or_raise (c : string) (o : Z) (x : node) : copies_or_raises c o x.
Proof.
  induction x as [a d f|a ms IH|a t|t] using node_members_ind;
    intros Hu a0 pre Hbelow;
    try (simpl; unfold copy_all; simpl; now rewrite app_nil_r).
  simpl in Hu. apply andb_true_iff in Hu as [Hord Hu].
  unfold copy_all. cbn [node_members recompress].
  rewrite (visit_ordered a ms Hord), <- (visit_ordered a0 ms Hord).
  now apply copy_or_raise_list.
Qed.

(** The traversal from the empty output file completes exactly on the
    copyable trees. *)
Lemma copy_all_exact (c : string) (o : Z) (x : node) :
  valid_file x = true ->
  if copyable c o x
  then copy_all c o x empty_file =
       (Group ∅ (node_members (recompress (c, o) x)), Ok tt)
  else snd (copy_all c o x empty_file) = Raise.
Proof.
  intros Hv. apply andb_true_iff in Hv as [Hg Hu].
  destruct x as [|a ms| |]; try discriminate.
  exact (copy_or_raise c o (Group a ms) Hu ∅ [] (names_below_nil _)).
Qed.

(** A dataspace that takes a filter and a pair h5py accepts. *)
Lemma chunkable_copyable (c : string) (o : Z) (x : node) :
  filter_accepted c o = true -> chunkable x = true -> copyable c o x = true.
Proof.
  intros Hacc.
  induction x as [a d f|a ms IH|a t|t] using node_members_ind; intros Hc;
    try reflexivity.
  - simpl in *. now rewrite Hc.
  - simpl in *. induction IH as [|nc r Hx _ IHr]; [reflexivity|].
    simpl in *. apply andb_true_iff in Hc as [Hc1 Hc2].
    now rewrite (Hx Hc1), (IHr Hc2).
Qed.

(** ** compress_hdf5_file on a world *)

Lemma compressed_output_path_length (p : string) :
  String.length (compressed_output_path p) = (String.length p + 11)%nat.
Proof.
  unfold compressed_output_path.
  destruct (splitext_spec p) as [E _].
  destruct (splitext p) as [base ext]; simpl in E.
  rewrite <- E. rewrite !length_append. simpl. lia.
Qed.

(** The compressor never writes over its input. *)
Lemma compressed_output_path_ne (p : string) : compressed_output_path p <> p.
Proof.
  intros E. pose proof (compressed_output_path_length p) as L.
  rewrite E in L. lia.
Qed.

(** ** Names a file can be created under *)

Lemma basename_no_sep (t : string) : PyStr.mem sep t = false -> basename t = t.
Proof. destruct t as [|x r]; [reflexivity|]. intros H. simpl in *. now rewrite H. Qed.

Lemma basename_app (s t : string) :
  PyStr.mem sep t = false -> basename (s +:+ t) = basename s +:+ t.
Proof.
  intros Ht. induction s as [|x r IH]; [now apply basename_no_sep|].
  rewrite append_cons. cbn [basename PyStr.mem].
  rewrite mem_append, Ht, orb_false_r.
  destruct (Ascii.eqb x sep || PyStr.mem sep r); [exact IH | now rewrite append_cons].
Qed.

Lemma eqb_length_ne (a b : string) :
  String.length a <> String.length b -> String.eqb a b = false.
Proof. intros H. apply String.eqb_neq. intros ->. now apply H. Qed.

(** A name that ends in three characters or more after its last
    separator is one a file can be created under. *)
Lemma creatable_suffix (s t : string) :
  PyStr.mem sep t = false -> (3 <= String.length t)%nat ->
  creatable (s +:+ t) = true.
Proof.
  intros Ht Hl. unfold creatable. rewrite (basename_app s t Ht).
  rewrite !eqb_length_ne; [reflexivity|..]; rewrite length_append; simpl; lia.
Qed.

Lemma is_extension_no_sep (ext : string) :
  is_extension ext -> PyStr.mem sep ext = false.
Proof. intros [->|[rest [-> [_ H]]]]; [reflexivity | simpl; exact H]. Qed.

(** The output path of the compressor is one a file can be created
    under. *)
Lemma creatable_compressed (p : string) :
  creatable (compressed_output_path p) = true.
Proof.
  unfold compressed_output_path.
  destruct (splitext_spec p) as [_ X].
  destruct (splitext p) as [base ext]; simpl in X.
  apply creatable_suffix.
  - rewrite mem_append, (is_extension_no_sep ext X). reflexivity.
  - rewrite length_append. simpl. lia.
Qed.

(** So is the target the converter derives from its source. *)
Lemma creatable_default_target (p : string) :
  creatable (resolve_hdf5_filepath p None) = true.
Proof.
  unfold resolve_hdf5_filepath. destruct (splitext p) as [base ext].
  apply creatable_suffix; [reflexivity | simpl; lia].
Qed.

(** The run of compress_hdf5_file, in one equation. *)
Lemma compress_hdf5_file_eq (w : world) (input_path : string) (c : string)
    (o : Z) :
  compress_hdf5_file w input_path c o =
  match fs w !! input_path with
  | Some (Hdf5 f_in) =>
      let '(f_out, r) := copy_all c o f_in empty_file in
      compressed_world w input_path f_out r
  | _ => (w, Raised)
  end.
Proof.
  unfold compress_hdf5_file, File_r.
  destruct (fs w !! input_path) as [[f_in|bytes]|]; try reflexivity.
  unfold File_w. rewrite creatable_compressed.
  destruct (copy_all c o f_in empty_file) as [f_out r].
  unfold compressed_world, close, flush, with_handles, with_fs, print; simpl.
  rewrite decide_True by reflexivity. simpl.
  rewrite decide_True by reflexivity.
  rewrite insert_insert_eq.
  destruct r; reflexivity.
Qed.

Lemma compress_hdf5_file_copyable (w : world) (input_path : string)
    (c : string) (o : Z) (f_in : node) :
  fs w !! input_path = Some (Hdf5 f_in) ->
  valid_file f_in = true -> copyable c o f_in = true ->
  compress_hdf5_file w input_path c o =
  compressed_world w input_path
    (Group ∅ (node_members (recompress (c, o) f_in))) (Ok tt).
Proof.
  intros Hin Hv Hc. rewrite compress_hdf5_file_eq, Hin.
  pose proof (copy_all_exact c o f_in Hv) as H. rewrite Hc in H.
  now rewrite H.
Qed.

Lemma compress_hdf5_file_ok (w : world) (input_path : string) (c : string)
    (o : Z) (f_in : node) :
  fs w !! input_path = Some (Hdf5 f_in) ->
  valid_file f_in = true -> chunkable f_in = true ->
  filter_accepted c o = true ->
  compress_hdf5_file w input_path c o =
  compressed_world w input_path
    (Group ∅ (node_members (recompress (c, o) f_in))) (Ok tt).
Proof.
  intros Hin Hv Hc Hacc.
  apply compress_hdf5_file_copyable; [exact Hin | exact Hv |].
  now apply chunkable_copyable.
Qed.

(** The file system after a run differs from the one before at the
    derived output path at most. *)
Lemma compress_writes_output_only (w : world) (input_path : string)
    (c : string) (o : Z) (q : string) :
  q <> compressed_output_path input_path ->
  fs (fst (compress_hdf5_file w input_path c o)) !! q = fs w !! q.
Proof.
  intros Hq. rewrite compress_hdf5_file_eq.
  destruct (fs w !! input_path) as [[f_in|bytes]|]; try reflexivity.
  destruct (copy_all c o f_in empty_file) as [f_out [[]|]]; simpl;
    now rewrite lookup_insert_ne.
Qed.


(** ** What the compressor writes, name by name *)

Lemma lookup_member_forallb (P : node -> bool) (n : string) (c : node)
    (ms : list (string * node)) :
  forallb (fun nc => P (snd nc)) ms = true ->
  lookup_member n ms = Some c -> P c = true.
Proof.
  induction ms as [|[m d] r IH]; simpl; [discriminate|].
  intros H. apply andb_true_iff in H as [Hd Hr].
  destruct (String.eqb m n); [intros E; now inversion E; subst | now apply IH].
Qed.

Lemma lookup_member_after (n : string) (ms : list (string * node)) :
  forallb (String.ltb n) (map fst ms) = true -> lookup_member n ms = None.
Proof.
  intros H. apply lookup_member_None. intros Hin.
  rewrite forallb_forall in H. specialize (H n Hin).
  rewrite ltb_irrefl in H. discriminate.
Qed.

Lemma copied_member_eq (g : node -> node) (n : string) (c : node) :
  copied_member g (n, c) =
  match c with
  | Dataset _ _ _ | Group _ _ => [(n, g c)]
  | _ => []
  end.
Proof. reflexivity. Qed.

Lemma lookup_copied_member (flt : string * Z) (n : string)
    (ms : list (string * node)) :
  ordered_names (map fst ms) = true ->
  lookup_member n (flat_map (copied_member (recompress flt)) ms) =
  match lookup_member n ms with
  | Some c => copied flt c
  | None => None
  end.
Proof.
  induction ms as [|[m c] r IH]; intros H; [reflexivity|].
  simpl in H. apply andb_true_iff in H as [Hm Hr].
  cbn [flat_map lookup_member]. rewrite lookup_member_app.
  destruct (String.eqb_spec m n) as [->|N].
  - rewrite copied_member_eq.
    destruct c; cbn [lookup_member copied];
      rewrite ?String.eqb_refl; try reflexivity.
    all: rewrite (IH Hr), (lookup_member_after n r Hm); reflexivity.
  - assert (E : lookup_member n (copied_member (recompress flt) (m, c)) = None).
    { rewrite copied_member_eq. destruct c; simpl; try reflexivity.
      all: destruct (String.eqb_spec m n); [contradiction | reflexivity]. }
    rewrite E. exact (IH Hr).
Qed.

(** The entry of the output at a name is what the compressor makes of
    the entry of the input at that name. *)
Lemma resolve_recompress (flt : string * Z) (q : path) (x : node) :
  name_ordered x = true -> q <> [] ->
  resolve q (recompress flt x) =
  match resolve q x with
  | Some y => copied flt y
  | None => None
  end.
Proof.
  revert x; induction q as [|n r IH]; intros x Hu Hq; [congruence|].
  destruct x as [a d f|a ms|a t|t]; try reflexivity.
  cbn [name_ordered] in Hu. apply andb_true_iff in Hu as [Hord Hu].
  cbn [recompress resolve]. rewrite (lookup_copied_member flt n ms Hord).
  destruct (lookup_member n ms) as [c|] eqn:E; [|reflexivity].
  pose proof (lookup_member_forallb name_ordered n c ms Hu E) as Hc.
  destruct r as [|k r'].
  - destruct c; reflexivity.
  - destruct c as [a' d' f'|a' ms'|a' t'|t']; try reflexivity.
    cbn [copied]. now apply IH.
Qed.

Lemma resolve_below_root (q : path) (a a' : gmap string attr_value)
    (ms : list (string * node)) :
  q <> [] -> resolve q (Group a ms) = resolve q (Group a' ms).
Proof. destruct q; [congruence | reflexivity]. Qed.

(** The entries of the file a completed run leaves. *)
Lemma resolve_output (flt : string * Z) (q : path) (f_in : node) :
  valid_file f_in = true -> q <> [] ->
  resolve q (Group ∅ (node_members (recompress flt f_in))) =
  match resolve q f_in with
  | Some y => copied flt y
  | None => None
  end.
Proof.
  intros Hv Hq. apply andb_true_iff in Hv as [Hg Hu].
  destruct f_in as [|a0 ms| |]; try discriminate.
  rewrite (resolve_below_root q ∅ a0) by exact Hq.
  change (Group a0 (node_members (recompress flt (Group a0 ms))))
    with (recompress flt (Group a0 ms)).
  now apply resolve_recompress.
Qed.

Lemma resolve_chunkable (q : path) (x : node) (a : gmap string attr_value)
    (d : ndarray) (f : option (string * Z)) :
  chunkable x = true -> resolve q x = Some (Dataset a d f) ->
  filterable d = true.
Proof.
  revert x; induction q as [|n r IH]; intros x Hc H.
  - simpl in H. inversion H; subst x. exact Hc.
  - destruct x as [|a' ms| |]; try discriminate. simpl in H, Hc.
    destruct (lookup_member n ms) as [c|] eqn:E; [|discriminate].
    apply (IH c); [|exact H].
    exact (lookup_member_forallb chunkable n c ms Hc E).
Qed.

(** ** Compressing a compressed file *)

Lemma forallb_ltb_copied (g : node -> node) (n : string)
    (ms : list (string * node)) :
  forallb (String.ltb n) (map fst ms) = true ->
  forallb (String.ltb n) (map fst (flat_map (copied_member g) ms)) = true.
Proof.
  induction ms as [|[m c] r IH]; [reflexivity|].
  cbn [map fst forallb flat_map].
  intros H. apply andb_true_iff in H as [Hm Hr].
  rewrite copied_member_eq.
  destruct c; cbn [app map fst forallb]; rewrite ?Hm; now apply IH.
Qed.

Lemma ordered_names_copied (g : node -> node) (ms : list (string * node)) :
  ordered_names (map fst ms) = true ->
  ordered_names (map fst (flat_map (copied_member g) ms)) = true.
Proof.
  induction ms as [|[m c] r IH]; [reflexivity|].
  cbn [map fst ordered_names flat_map].
  intros H. apply andb_true_iff in H as [Hm Hr].
  rewrite copied_member_eq.
  destruct c; cbn [app map fst ordered_names];
    rewrite ?(forallb_ltb_copied g m r Hm); now apply IH.
Qed.

Lemma name_ordered_recompress (flt : string * Z) (x : node) :
  name_ordered x = true -> name_ordered (recompress flt x) = true.
Proof.
  induction x as [a d f|a ms IH|a t|t] using node_members_ind;
    try reflexivity.
  cbn [name_ordered recompress]. intros H.
  apply andb_true_iff in H as [Hord Hu].
  rewrite (ordered_names_copied _ ms Hord). cbn [andb].
  clear Hord. induction IH as [|[n c] r Hc _ IHr]; [reflexivity|].
  cbn [forallb flat_map snd] in *. apply andb_true_iff in Hu as [Hu1 Hu2].
  rewrite copied_member_eq.
  destruct c; cbn [app forallb snd]; rewrite ?(Hc Hu1); now apply IHr.
Qed.

Lemma valid_file_output (flt : string * Z) (x : node) :
  valid_file x = true ->
  valid_file (Group ∅ (node_members (recompress flt x))) = true.
Proof.
  intros Hv. apply andb_true_iff in Hv as [Hg Hu].
  destruct x as [|a ms| |]; try discriminate.
  exact (name_ordered_recompress flt (Group a ms) Hu).
Qed.

Lemma copyable_recompress (c : string) (o : Z) (flt : string * Z) (x : node) :
  copyable c o (recompress flt x) = copyable c o x.
Proof.
  induction x as [a d f|a ms IH|a t|t] using node_members_ind;
    try reflexivity.
  cbn [copyable recompress].
  induction IH as [|[n y] r Hc _ IHr]; [reflexivity|].
  cbn [forallb flat_map snd] in *. rewrite copied_member_eq.
  destruct y; cbn [app forallb snd]; rewrite ?Hc, IHr; reflexivity.
Qed.

(** The last filter wins. *)
Lemma recompress_recompress (flt flt' : string * Z) (x : node) :
  recompress flt' (recompress flt x) = recompress flt' x.
Proof.
  induction x as [a d f|a ms IH|a t|t] using node_members_ind;
    try reflexivity.
  cbn [recompress]. f_equal.
  induction IH as [|[n y] r Hc _ IHr]; [reflexivity|].
  cbn [flat_map snd] in *. rewrite !(copied_member_eq _ n y).
  destruct y; cbn [app flat_map]; rewrite ?copied_member_eq;
    cbn [recompress app] in *; rewrite ?Hc, IHr; reflexivity.
Qed.

(** On a tree of groups and datasets the compressor changes the filters
    only. *)
Lemma decoded_recompress (flt : string * Z) (x : node) :
  plain x = true -> decoded (recompress flt x) = decoded x.
Proof.
  induction x as [a d f|a ms IH|a t|t] using node_members_ind;
    try reflexivity; try discriminate.
  cbn [plain recompress decoded]. intros Hp. f_equal.
  induction IH as [|[n y] r Hc _ IHr]; [reflexivity|].
  cbn [forallb flat_map map fst snd] in *.
  apply andb_true_iff in Hp as [Hp1 Hp2].
  rewrite copied_member_eq.
  destruct y; try discriminate; cbn [app map fst snd];
    rewrite (Hc Hp1), (IHr Hp2); reflexivity.
Qed.

(** ** The claims about compress_hdf5_file *)

(** C1: (code defect) the claim asks for an output isomorphic to the
    input, attributes of the root group included.  [visititems] never
    hands the root group to [copy_item], so nothing copies its
    attributes: on a file whose root group carries the attribute "title",
    the run completes, the output root has no attribute, and the output
    is not isomorphic to the input. *)
Theorem compress_loses_root_attributes :
  snd (compress_hdf5_file titled_world "a/b.h5"
         default_compression default_compression_opts) = Returned None /\
  fs (fst (compress_hdf5_file titled_world "a/b.h5"
             default_compression default_compression_opts))
    !! "a/b_compressed.h5"%string = Some (Hdf5 (Group ∅ [])) /\
  node_attrs titled_tree !! "title"%string = Some (AttrStr "run") /\
  ~ output_isomorphic titled_world "a/b.h5"
      default_compression default_compression_opts.
Proof.
  unfold default_compression, default_compression_opts.
  assert (E : fs (fst (compress_hdf5_file titled_world "a/b.h5" "gzip" 9))
                !! "a/b_compressed.h5"%string = Some (Hdf5 (Group ∅ []))).
  { rewrite (compress_hdf5_file_ok titled_world "a/b.h5" "gzip" 9 titled_tree);
      reflexivity. }
  split; [|split; [exact E|split; [reflexivity|]]].
  { rewrite (compress_hdf5_file_ok titled_world "a/b.h5" "gzip" 9 titled_tree);
      reflexivity. }
  intros H. destruct (H titled_tree eq_refl) as [f_out [Hout Hiso]].
  change (compressed_output_path "a/b.h5") with "a/b_compressed.h5"%string in Hout.
  rewrite E in Hout. inversion Hout; subst f_out.
  unfold isomorphic in Hiso.
  apply (f_equal (fun x => node_attrs x !! "title"%string)) in Hiso.
  discriminate Hiso.
Qed.

(** C2: (amended) for every input file whose datasets all have at least
    one dimension (none scalar, none null), and a codec and level h5py
    accepts, every dataset of the input is found in the output under the
    name [visititems] reaches it by, with the same payload (shape,
    element type, elements), the same attributes, and the given
    filter. *)
Theorem compress_copies_datasets (w : world) (input_path : string)
    (c : string) (o : Z) (f_in : node) :
  fs w !! input_path = Some (Hdf5 f_in) ->
  valid_file f_in = true -> chunkable f_in = true ->
  filter_accepted c o = true ->
  datasets_copied w input_path c o.
Proof.
  intros Hin Hv Hc Hacc f_in' q a d f Hin' Hres.
  rewrite Hin in Hin'; inversion Hin'; subst f_in'.
  rewrite (compress_hdf5_file_ok w input_path c o f_in Hin Hv Hc Hacc).
  simpl. rewrite lookup_insert_eq. eexists; split; [reflexivity|].
  assert (Hq : q <> []).
  { intros ->. apply andb_true_iff in Hv as [Hg _].
    simpl in Hres. inversion Hres; subst f_in. discriminate Hg. }
  rewrite (resolve_output (c, o) q f_in Hv Hq), Hres. simpl.
  now rewrite (resolve_chunkable q f_in a d f Hc Hres).
Qed.

Lemma compress_copies_datasets_witness :
  filter_accepted "gzip" 9 = true /\
  datasets_copied sample_world "a/b.h5" "gzip" 9.
Proof.
  split; [reflexivity|].
  apply (compress_copies_datasets sample_world "a/b.h5" "gzip" 9 sample_tree);
    reflexivity.
Defined.

(** C2, as stated, fails: a scalar dataset and a dataset with the null
    dataspace cannot take filter options, so [create_dataset] raises and
    the dataset never reaches the output; a codec and level h5py refuses
    ("lzf" with an integer option) raise in the same place. *)
Lemma compress_scalar_dataset_not_copied :
  ~ datasets_copied scalar_world "a/b.h5" "gzip" 9 /\
  ~ datasets_copied null_world "a/b.h5" "gzip" 9 /\
  ~ datasets_copied sample_world "a/b.h5" "lzf" 9.
Proof.
  split; [|split]; intros H.
  - destruct (H scalar_tree ["s"] ∅ scalar_array None eq_refl eq_refl)
      as [f_out [Hout Hres]].
    vm_compute in Hout. inversion Hout; subst f_out. discriminate Hres.
  - destruct (H null_tree ["z"] ∅ null_array None eq_refl eq_refl)
      as [f_out [Hout Hres]].
    vm_compute in Hout. inversion Hout; subst f_out. discriminate Hres.
  - destruct (H sample_tree ["e"] ∅ sample_array (Some ("lzf"%string, 0))
                eq_refl eq_refl) as [f_out [Hout Hres]].
    vm_compute in Hout. inversion Hout; subst f_out. discriminate Hres.
Qed.

(** C4: the output path of the compressor is a function of the input
    path alone: the input path cut by [os.path.splitext] into a base and
    an extension, with "_compressed" put between the two.  For a file
    name "stem.ext" in any directory the suffix goes before ".ext"; for a
    file name without a dot it goes at the end.  No argument overrides
    it: whatever the codec and level, a run changes the file system at
    that path only, and a run that opens its input leaves a container
    there.  "a/b.h5" gives "a/b_compressed.h5". *)
Theorem compressed_output_path_spec :
  (forall input_path,
     exists base ext,
       input_path = base +:+ ext /\ is_extension ext /\
       compressed_output_path input_path = base +:+ "_compressed" +:+ ext) /\
  (forall dir stem ext,
     is_dir_prefix dir -> PyStr.mem sep stem = false -> all_dots stem = false ->
     PyStr.mem extsep ext = false -> PyStr.mem sep ext = false ->
     compressed_output_path (dir +:+ stem +:+ String extsep ext) =
     (dir +:+ stem) +:+ "_compressed" +:+ String extsep ext) /\
  (forall dir name,
     is_dir_prefix dir ->
     PyStr.mem sep name = false -> PyStr.mem extsep name = false ->
     compressed_output_path (dir +:+ name) = (dir +:+ name) +:+ "_compressed") /\
  (forall input_path w c o,
     delete (compressed_output_path input_path)
            (fs (fst (compress_hdf5_file w input_path c o))) =
     delete (compressed_output_path input_path) (fs w)) /\
  (forall input_path w c o f_in,
     fs w !! input_path = Some (Hdf5 f_in) ->
     exists f_out,
       fs (fst (compress_hdf5_file w input_path c o))
         !! compressed_output_path input_path = Some (Hdf5 f_out)) /\
  compressed_output_path "a/b.h5" = "a/b_compressed.h5"%string.
Proof.
  split; [|split; [|split; [|split; [|split; [|reflexivity]]]]].
  - intros input_path. destruct (splitext_spec input_path) as [E X].
    unfold compressed_output_path.
    destruct (splitext input_path) as [base ext]; simpl in E, X.
    now exists base, ext.
  - intros dir stem ext Hdir Hstem Hdots Hext Hsep.
    unfold compressed_output_path.
    now rewrite splitext_with_extension, Hdots.
  - intros dir name Hdir Hsep Hdot. unfold compressed_output_path.
    rewrite splitext_without_extension by assumption.
    now rewrite append_nil_r.
  - intros input_path w c o. apply map_eq; intros q.
    destruct (decide (q = compressed_output_path input_path)) as [->|N].
    + now rewrite !lookup_delete_eq.
    + rewrite !lookup_delete_ne by congruence.
      now apply compress_writes_output_only.
  - intros input_path w c o f_in Hin. rewrite compress_hdf5_file_eq, Hin.
    destruct (copy_all c o f_in empty_file) as [f_out [[]|]]; simpl;
      rewrite lookup_insert_eq; now exists f_out.
Qed.

Lemma compressed_output_path_spec_witness :
  compressed_output_path "/data/run.7/trace.h5" =
  "/data/run.7/trace_compressed.h5"%string /\
  compressed_output_path "/data/run.7/trace" =
  "/data/run.7/trace_compressed"%string /\
  exists f_out,
    fs (fst (compress_hdf5_file sample_world "a/b.h5" "gzip" 9))
      !! compressed_output_path "a/b.h5" = Some (Hdf5 f_out).
Proof.
  split; [|split].
  - apply (proj1 (proj2 compressed_output_path_spec)
             "/data/run.7/"%string "trace"%string "h5"%string);
      [right; now exists "/data/run.7"%string | reflexivity..].
  - apply (proj1 (proj2 (proj2 compressed_output_path_spec))
             "/data/run.7/"%string "trace"%string);
      [right; now exists "/data/run.7"%string | reflexivity..].
  - exact (proj1 (proj2 (proj2 (proj2 (proj2 compressed_output_path_spec))))
             "a/b.h5"%string sample_world "gzip"%string 9 sample_tree eq_refl).
Defined.

(** C7: a second run of the compressor on the same source with the same
    codec and level, started in the world the first run left, ends the
    same way and leaves the same file system: the output file of the
    second run is the output file of the first, decoded contents and
    filter alike. *)
Theorem compress_twice_same_output (w : world) (input_path : string)
    (c : string) (o : Z) :
  let run1 := compress_hdf5_file w input_path c o in
  let run2 := compress_hdf5_file (fst run1) input_path c o in
  snd run2 = snd run1 /\
  fs (fst run2) = fs (fst run1) /\
  (forall f_in,
     fs w !! input_path = Some (Hdf5 f_in) ->
     exists f_out,
       fs (fst run1) !! compressed_output_path input_path = Some (Hdf5 f_out) /\
       fs (fst run2) !! compressed_output_path input_path = Some (Hdf5 f_out)).
Proof.
  cbv zeta.
  assert (Hin1 : fs (fst (compress_hdf5_file w input_path c o)) !! input_path
                 = fs w !! input_path).
  { apply compress_writes_output_only. intros E.
    now apply (compressed_output_path_ne input_path). }
  rewrite (compress_hdf5_file_eq (fst (compress_hdf5_file w input_path c o))).
  rewrite Hin1. rewrite (compress_hdf5_file_eq w).
  destruct (fs w !! input_path) as [[f_in|bytes]|] eqn:Hin.
  2,3: split; [reflexivity | split; [reflexivity | discriminate]].
  destruct (copy_all c o f_in empty_file) as [f_out [[]|]]; simpl;
    rewrite insert_insert_eq;
    (split; [reflexivity | split; [reflexivity|]]);
    intros f Hf; exists f_out; now rewrite lookup_insert_eq.
Qed.

Lemma compress_twice_same_output_witness :
  exists f_out,
    fs (fst (compress_hdf5_file sample_world "a/b.h5" "gzip" 9))
      !! compressed_output_path "a/b.h5" = Some (Hdf5 f_out) /\
    fs (fst (compress_hdf5_file
               (fst (compress_hdf5_file sample_world "a/b.h5" "gzip" 9))
               "a/b.h5" "gzip" 9))
      !! compressed_output_path "a/b.h5" = Some (Hdf5 f_out).
Proof.
  exact (proj2 (proj2 (compress_twice_same_output sample_world "a/b.h5" "gzip" 9))
           sample_tree eq_refl).
Defined.

(** C9: compress_hdf5_file has no [return]: a call never hands a path
    back.  When it returns, the value is [None] and the only trace of the
    output path is the line printed last; and it does return on every
    valid input whose datasets all have at least one dimension, for a
    codec and level h5py accepts. *)
Theorem compress_returns_none (w : world) (input_path : string)
    (c : string) (o : Z) :
  (forall v,
     snd (compress_hdf5_file w input_path c o) = Returned v ->
     v = None /\
     stdout (fst (compress_hdf5_file w input_path c o)) =
     (stdout w ++ ["Compressed file saved as: "
                   +:+ compressed_output_path input_path])%list) /\
  (forall f_in,
     fs w !! input_path = Some (Hdf5 f_in) ->
     valid_file f_in = true -> chunkable f_in = true ->
     filter_accepted c o = true ->
     snd (compress_hdf5_file w input_path c o) = Returned None).
Proof.
  split.
  - intros v. rewrite compress_hdf5_file_eq.
    destruct (fs w !! input_path) as [[f_in|bytes]|]; try discriminate.
    destruct (copy_all c o f_in empty_file) as [f_out [[]|]]; simpl;
      [|discriminate].
    intros H; inversion H; subst v. now split.
  - intros f_in Hin Hv Hc Hacc.
    now rewrite (compress_hdf5_file_ok w input_path c o f_in Hin Hv Hc Hacc).
Qed.

Lemma compress_returns_none_witness :
  snd (compress_hdf5_file sample_world "a/b.h5" "gzip" 9) = Returned None.
Proof.
  apply (proj2 (compress_returns_none sample_world "a/b.h5" "gzip" 9) sample_tree);
    reflexivity.
Defined.

(** C10: the input is opened before the output is created: when the
    input path does not hold an HDF5 container (it is missing, or holds
    anything else), the call raises and the world is the one it started
    in; no file is created and a file already at the output path is not
    touched. *)
Theorem compress_unopenable_input (w : world) (input_path : string)
    (c : string) (o : Z) :
  (forall f_in, fs w !! input_path <> Some (Hdf5 f_in)) ->
  compress_hdf5_file w input_path c o = (w, Raised).
Proof.
  intros H. rewrite compress_hdf5_file_eq.
  destruct (fs w !! input_path) as [[f_in|bytes]|] eqn:E; try reflexivity.
  now destruct (H f_in).
Qed.

Lemma compress_unopenable_input_witness :
  compress_hdf5_file raw_world "a/b.h5" "gzip" 9 = (raw_world, Raised) /\
  compress_hdf5_file sample_world "a/c.h5" "gzip" 9 = (sample_world, Raised).
Proof.
  split.
  - apply (compress_unopenable_input raw_world "a/b.h5" "gzip" 9).
    intros f_in H. vm_compute in H. discriminate H.
  - apply (compress_unopenable_input sample_world "a/c.h5" "gzip" 9).
    intros f_in H. vm_compute in H. discriminate H.
Defined.

(** ** When the copy completes, and what it leaves *)

(** X1: on a file of groups and datasets whose datasets can all be
    created under the codec and level, the run returns, and apart from
    the attributes of the root group, which it does not write, its
    output is isomorphic to the input: same names, same nesting, same
    attributes, same decoded data. *)
Theorem compress_isomorphic_below_root (w : world) (input_path : string)
    (c : string) (o : Z) (f_in : node) :
  fs w !! input_path = Some (Hdf5 f_in) ->
  valid_file f_in = true -> plain f_in = true ->
  copyable c o f_in = true ->
  snd (compress_hdf5_file w input_path c o) = Returned None /\
  exists f_out,
    fs (fst (compress_hdf5_file w input_path c o))
      !! compressed_output_path input_path = Some (Hdf5 f_out) /\
    node_attrs f_out = ∅ /\
    isomorphic (with_attrs (node_attrs f_in) f_out) f_in.
Proof.
  intros Hin Hv Hp Hc.
  rewrite (compress_hdf5_file_copyable w input_path c o f_in Hin Hv Hc).
  split; [reflexivity|].
  simpl. rewrite lookup_insert_eq. eexists; split; [reflexivity|].
  split; [reflexivity|].
  unfold isomorphic. rewrite <- (decoded_recompress (c, o) f_in Hp).
  apply andb_true_iff in Hv as [Hg _].
  destruct f_in; try discriminate. reflexivity.
Qed.

Lemma compress_isomorphic_below_root_witness :
  snd (compress_hdf5_file sample_world "a/b.h5" "gzip" 9) = Returned None /\
  exists f_out,
    fs (fst (compress_hdf5_file sample_world "a/b.h5" "gzip" 9))
      !! compressed_output_path "a/b.h5" = Some (Hdf5 f_out) /\
    node_attrs f_out = ∅ /\
    isomorphic (with_attrs (node_attrs sample_tree) f_out) sample_tree.
Proof.
  apply (compress_isomorphic_below_root sample_world "a/b.h5" "gzip" 9 sample_tree);
    reflexivity.
Defined.



(** X5: after a run that returns, the output holds an entry at a name
    exactly when the input holds a dataset or a group there, and it is
    that object as the compressor writes it: a dataset is stored under
    the codec and level of this run when its dataspace takes a filter,
    whatever filter it had in the input, and under none when it is
    scalar or null.  A name that is a link or a committed datatype in
    the input is absent from the output. *)
Theorem compress_output_objects (w : world) (input_path : string)
    (c : string) (o : Z) (f_in : node) :
  fs w !! input_path = Some (Hdf5 f_in) ->
  valid_file f_in = true -> copyable c o f_in = true ->
  exists f_out,
    fs (fst (compress_hdf5_file w input_path c o))
      !! compressed_output_path input_path = Some (Hdf5 f_out) /\
    (forall q, q <> [] ->
       resolve q f_out =
       match resolve q f_in with
       | Some y => copied (c, o) y
       | None => None
       end) /\
    (forall q a d f,
       resolve q f_out = Some (Dataset a d f) ->
       f = if filterable d then Some (c, o) else None) /\
    (forall q y,
       resolve q f_in = Some y -> is_group y = false ->
       (forall a d f, y <> Dataset a d f) ->
       resolve q f_out = None).
Proof.
  intros Hin Hv Hc.
  rewrite (compress_hdf5_file_copyable w input_path c o f_in Hin Hv Hc).
  simpl. rewrite lookup_insert_eq. eexists; split; [reflexivity|].
  pose proof (fun q => resolve_output (c, o) q f_in Hv) as Hq.
  assert (Hroot : is_group f_in = true)
    by (apply andb_true_iff in Hv as [Hg _]; exact Hg).
  split; [exact Hq|]. split.
  - intros q a d f Hres. destruct q as [|n q]; [discriminate|].
    rewrite Hq in Hres by discriminate.
    destruct (resolve (n :: q) f_in) as [[a' d' f'|a' ms'|a' t'|t']|];
      simpl in Hres; try discriminate; now inversion Hres.
  - intros q y Hres Hg Hd. destruct q as [|n q].
    + simpl in Hres. inversion Hres; subst y. congruence.
    + rewrite Hq by discriminate. rewrite Hres.
      destruct y as [a' d' f'|a' ms'|a' t'|t']; try reflexivity.
      * now destruct (Hd a' d' f').
      * discriminate Hg.
Qed.

Lemma compress_output_objects_witness :
  exists f_out,
    fs (fst (compress_hdf5_file linked_world "a/b.h5" "gzip" 9))
      !! compressed_output_path "a/b.h5" = Some (Hdf5 f_out) /\
    resolve ["a"%string] f_out = Some (Dataset ∅ sample_array (Some ("gzip"%string, 9))) /\
    resolve ["b"%string] f_out = None /\
    resolve ["t"%string] f_out = None /\
    resolve ["missing"%string] f_out = None.
Proof.
  destruct (compress_output_objects linked_world "a/b.h5" "gzip" 9 linked_tree
              eq_refl eq_refl eq_refl) as [f_out [Hout [Hq _]]].
  exists f_out. split; [exact Hout|].
  split; [|split; [|split]]; (rewrite Hq by discriminate; reflexivity).
Defined.

(** ** Compressing the output again *)

(** X6: the output of a run that returned is itself a file the
    compressor copies: run on it, under a codec and level the input was
    copyable under, the compressor returns, leaves its input (the first
    output) as it was, and writes the members of the original input under
    the new filter; under the same codec and level the second output is
    the first output. *)
Theorem compress_output_again (w : world) (input_path : string)
    (c c' : string) (o o' : Z) (f_in : node) :
  fs w !! input_path = Some (Hdf5 f_in) ->
  valid_file f_in = true ->
  copyable c o f_in = true -> copyable c' o' f_in = true ->
  let out1 := compressed_output_path input_path in
  let w1 := fst (compress_hdf5_file w input_path c o) in
  let run2 := compress_hdf5_file w1 out1 c' o' in
  snd run2 = Returned None /\
  fs (fst run2) !! out1 = fs w1 !! out1 /\
  fs (fst run2) !! compressed_output_path out1 =
  Some (Hdf5 (Group ∅ (node_members (recompress (c', o') f_in)))) /\
  (c' = c -> o' = o ->
   fs (fst run2) !! compressed_output_path out1 = fs w1 !! out1).
Proof.
  intros Hin Hv Hc Hc'. cbv zeta.
  rewrite (compress_hdf5_file_copyable w input_path c o f_in Hin Hv Hc).
  cbn [compressed_world fst].
  set (t1 := Group ∅ (node_members (recompress (c, o) f_in))).
  set (w1 := print _ _).
  assert (H1 : fs w1 !! compressed_output_path input_path = Some (Hdf5 t1)).
  { subst w1. simpl. apply lookup_insert_eq. }
  pose proof (valid_file_output (c, o) f_in Hv) as Hv1. fold t1 in Hv1.
  apply andb_true_iff in Hv as [Hg Hu].
  destruct f_in as [|a0 ms| |]; try discriminate.
  assert (Hc1 : copyable c' o' t1 = true).
  { pose proof (copyable_recompress c' o' (c, o) (Group a0 ms)) as E.
    rewrite Hc' in E. exact E. }
  assert (E2 : node_members (recompress (c', o') t1) =
               node_members (recompress (c', o') (Group a0 ms))).
  { pose proof (recompress_recompress (c, o) (c', o') (Group a0 ms)) as E.
    cbn [recompress] in E. inversion E as [E']. subst t1.
    cbn [recompress node_members]. exact E'. }
  rewrite (compress_hdf5_file_copyable w1 _ c' o' t1 H1 Hv1 Hc1).
  cbn [compressed_world fst snd]. rewrite E2.
  split; [reflexivity|]. split; [|split].
  - simpl. rewrite lookup_insert_ne; [reflexivity|].
    apply compressed_output_path_ne.
  - simpl. apply lookup_insert_eq.
  - intros -> ->. rewrite H1. simpl. now rewrite lookup_insert_eq.
Qed.

Lemma compress_output_again_witness :
  snd (compress_hdf5_file (fst (compress_hdf5_file sample_world "a/b.h5" "gzip" 9))
         "a/b_compressed.h5" "gzip" 1) = Returned None /\
  fs (fst (compress_hdf5_file
             (fst (compress_hdf5_file sample_world "a/b.h5" "gzip" 9))
             "a/b_compressed.h5" "gzip" 1))
    !! "a/b_compressed_compressed.h5"%string =
  Some (Hdf5 (Group ∅ (node_members (recompress ("gzip"%string, 1) sample_tree)))).
Proof.
  pose proof (compress_output_again sample_world "a/b.h5" "gzip" "gzip" 9 1
                sample_tree eq_refl eq_refl eq_refl eq_refl) as H.
  cbv zeta in H. destruct H as [H1 [_ [H3 _]]]. split; [exact H1 | exact H3].
Defined.

(** ** The two derived paths together *)

(** X8: the converter's default target, given to the compressor: for a
    source "stem.ext" in any directory the conversion goes to "stem.h5"
    and its compression to "stem_compressed.h5" in that directory; for a
    source name without a dot, to "name.h5" and "name_compressed.h5". *)
Theorem compressed_path_of_default_target :
  (forall dir stem ext,
     is_dir_prefix dir -> PyStr.mem sep stem = false -> all_dots stem = false ->
     PyStr.mem extsep ext = false -> PyStr.mem sep ext = false ->
     compressed_output_path
       (resolve_hdf5_filepath (dir +:+ stem +:+ String extsep ext) None) =
     (dir +:+ stem) +:+ "_compressed.h5") /\
  (forall dir name,
     is_dir_prefix dir -> PyStr.mem sep name = false ->
     PyStr.mem extsep name = false -> name <> EmptyString ->
     compressed_output_path (resolve_hdf5_filepath (dir +:+ name) None) =
     (dir +:+ name) +:+ "_compressed.h5").
Proof.
  assert (H5 : forall dir stem,
            is_dir_prefix dir -> PyStr.mem sep stem = false ->
            all_dots stem = false ->
            compressed_output_path ((dir +:+ stem) +:+ ".h5") =
            (dir +:+ stem) +:+ "_compressed.h5").
  { intros dir stem Hdir Hstem Hdots. unfold compressed_output_path.
    rewrite append_assoc.
    change ".h5"%string with (String extsep "h5").
    rewrite splitext_with_extension by (assumption || reflexivity).
    now rewrite Hdots. }
  split.
  - intros dir stem ext Hdir Hstem Hdots Hext Hsep.
    unfold resolve_hdf5_filepath.
    rewrite splitext_with_extension by assumption. rewrite Hdots.
    now apply H5.
  - intros dir name Hdir Hsep Hdot Hne. unfold resolve_hdf5_filepath.
    rewrite splitext_without_extension by assumption.
    apply H5; [assumption..|].
    destruct name as [|x r]; [congruence|]. simpl in *.
    apply orb_false_iff in Hdot as [Hx _]. now rewrite Hx.
Qed.

Lemma compressed_path_of_default_target_witness :
  compressed_output_path (resolve_hdf5_filepath "/data/run.7/trace.v2.tdms" None) =
  "/data/run.7/trace.v2_compressed.h5"%string /\
  compressed_output_path (resolve_hdf5_filepath "/data/run.7/trace" None) =
  "/data/run.7/trace_compressed.h5"%string.
Proof.
  split.
  - apply (proj1 compressed_path_of_default_target
             "/data/run.7/"%string "trace.v2"%string "tdms"%string);
      [right; now exists "/data/run.7"%string | reflexivity..].
  - apply (proj2 compressed_path_of_default_target
             "/data/run.7/"%string "trace"%string);
      [right; now exists "/data/run.7"%string | reflexivity.. | discriminate].
Defined.

(** ** The claims about convert_tdms_to_hdf5 and main *)



Section ConverterProperties.
Context {tdms_file : Type}.
Variable tdms_parse : list Z -> option tdms_file.
Variable hdf_export : tdms_file -> H5 unit.

Lemma TdmsFile_read_exists (w : world) (p : string) (t : tdms_file) :
  TdmsFile_read tdms_parse w p = Some t -> path_exists w p = true.
Proof.
  unfold TdmsFile_read, path_exists.
  destruct (fs w !! p) as [[|]|]; [discriminate | reflexivity | discriminate].
Qed.

(** The run of the converter on a source that exists. *)
Lemma convert_existing_eq (w : world) (p : string) (q : option string) :
  path_exists w p = true ->
  convert_tdms_to_hdf5 tdms_parse hdf_export w p q =
  let target := resolve_hdf5_filepath p q in
  let w1 := print w (converting_message p target) in
  match TdmsFile_read tdms_parse w p with
  | None => (w1, Raised)
  | Some t =>
      if creatable target then
        let w2 :=
          with_fs w1 (<[target := Hdf5 (fst (hdf_export t empty_file))]> (fs w)) in
        match snd (hdf_export t empty_file) with
        | Ok _ => (print w2 "Conversion complete!", Returned None)
        | Raise => (w2, Raised)
        end
      else (w1, Raised)
  end.
Proof.
  intros He. unfold convert_tdms_to_hdf5. rewrite He. simpl.
  change (TdmsFile_read tdms_parse (print w ?m) p) with (TdmsFile_read tdms_parse w p).
  destruct (TdmsFile_read tdms_parse w p) as [t|]; [|reflexivity].
  unfold as_hdf, File_w.
  destruct (creatable (resolve_hdf5_filepath p q)); [|reflexivity].
  destruct (hdf_export t empty_file) as [root [[]|]];
    unfold close, flush, with_handles, with_fs, print; simpl;
    rewrite decide_True by reflexivity; now rewrite insert_insert_eq.
Qed.

(** The run of the converter on a source nptdms reads, towards a name a
    file can be created under. *)
Lemma convert_eq (w : world) (p : string) (q : option string)
    (t : tdms_file) :
  TdmsFile_read tdms_parse w p = Some t ->
  creatable (resolve_hdf5_filepath p q) = true ->
  fs (fst (convert_tdms_to_hdf5 tdms_parse hdf_export w p q)) =
  <[resolve_hdf5_filepath p q := Hdf5 (fst (hdf_export t empty_file))]> (fs w) /\
  exists rest,
    stdout (fst (convert_tdms_to_hdf5 tdms_parse hdf_export w p q)) =
    (stdout w ++ ("Converting '" +:+ p +:+ "' to '"
                  +:+ resolve_hdf5_filepath p q +:+ "'...") :: rest)%list.
Proof.
  intros Hr Hc.
  rewrite (convert_existing_eq w p q (TdmsFile_read_exists w p t Hr)).
  cbv zeta. rewrite Hr, Hc.
  destruct (snd (hdf_export t empty_file)) as [[]|]; simpl.
  - split; [reflexivity|].
    exists ["Conversion complete!"%string]. now rewrite <- app_assoc.
  - split; [reflexivity|]. now exists [].
Qed.


(** C3: with no output path supplied, the target of the converter is a
    function of the source path alone: the source path cut by
    [os.path.splitext] into a base and an extension, with ".h5" in place
    of the extension.  For a file name "stem.ext" in any directory the
    target is "stem.h5" in that directory; for a file name without a dot
    ".h5" is appended.  That is the path the converter announces and
    writes.  "x/y.tdms" gives "x/y.h5". *)
Theorem convert_default_output :
  (forall tdms_filepath,
     exists base ext,
       tdms_filepath = base +:+ ext /\ is_extension ext /\
       resolve_hdf5_filepath tdms_filepath None = base +:+ ".h5") /\
  (forall dir stem ext,
     is_dir_prefix dir -> PyStr.mem sep stem = false -> all_dots stem = false ->
     PyStr.mem extsep ext = false -> PyStr.mem sep ext = false ->
     resolve_hdf5_filepath (dir +:+ stem +:+ String extsep ext) None =
     (dir +:+ stem) +:+ ".h5") /\
  (forall dir name,
     is_dir_prefix dir ->
     PyStr.mem sep name = false -> PyStr.mem extsep name = false ->
     resolve_hdf5_filepath (dir +:+ name) None = (dir +:+ name) +:+ ".h5") /\
  (forall tdms_filepath w t,
     TdmsFile_read tdms_parse w tdms_filepath = Some t ->
     fs (fst (convert_tdms_to_hdf5 tdms_parse hdf_export w tdms_filepath None))
       !! resolve_hdf5_filepath tdms_filepath None =
     Some (Hdf5 (fst (hdf_export t empty_file))) /\
     exists rest,
       stdout (fst (convert_tdms_to_hdf5 tdms_parse hdf_export w tdms_filepath None)) =
       (stdout w ++ ("Converting '" +:+ tdms_filepath +:+ "' to '"
                     +:+ resolve_hdf5_filepath tdms_filepath None +:+ "'...")
                    :: rest)%list) /\
  resolve_hdf5_filepath "x/y.tdms" None = "x/y.h5"%string.
Proof.
  split; [|split; [|split; [|split; [|reflexivity]]]].
  - intros tdms_filepath. destruct (splitext_spec tdms_filepath) as [E X].
    unfold resolve_hdf5_filepath.
    destruct (splitext tdms_filepath) as [base ext]; simpl in E, X.
    now exists base, ext.
  - intros dir stem ext Hdir Hstem Hdots Hext Hsep.
    unfold resolve_hdf5_filepath.
    now rewrite splitext_with_extension, Hdots.
  - intros dir name Hdir Hsep Hdot. unfold resolve_hdf5_filepath.
    now rewrite splitext_without_extension.
  - intros tdms_filepath w t Hr.
    destruct (convert_eq w tdms_filepath None t Hr
                (creatable_default_target tdms_filepath)) as [Hfs Hout].
    split; [|exact Hout]. rewrite Hfs. apply lookup_insert_eq.
Qed.

(** C5: on a path that does not exist, the converter prints one line,
    "Error: The file '<path>' does not exist.", exits with status 1 and
    leaves the file system and the open handles as they were. *)
Theorem convert_missing_source (w : world) (tdms_filepath : string)
    (hdf5_filepath : option string) :
  fs w !! tdms_filepath = None ->
  convert_tdms_to_hdf5 tdms_parse hdf_export w tdms_filepath hdf5_filepath =
  (print w ("Error: The file '" +:+ tdms_filepath +:+ "' does not exist."),
   Exited 1) /\
  fs (fst (convert_tdms_to_hdf5 tdms_parse hdf_export w tdms_filepath hdf5_filepath)) = fs w /\
  handles (fst (convert_tdms_to_hdf5 tdms_parse hdf_export w tdms_filepath hdf5_filepath)) = handles w.
Proof.
  intros H. unfold convert_tdms_to_hdf5, path_exists. rewrite H. simpl.
  repeat split.
Qed.

(** C6: with no argument after the program name and a first parameter
    that is [None] or empty, main prints "No TDMS file provided.
    Exiting.", exits with status 1 and leaves the file system as it
    was. *)
Theorem main_without_arguments (w : world)
    (tdms_filepath hdf5_filepath : option string) :
  (length (argv w) <= 1)%nat ->
  truthy tdms_filepath = false ->
  main tdms_parse hdf_export w tdms_filepath hdf5_filepath =
  (print w "No TDMS file provided. Exiting.", Exited 1) /\
  fs (fst (main tdms_parse hdf_export w tdms_filepath hdf5_filepath)) = fs w.
Proof.
  intros Hargs Hfalsy. unfold main.
  destruct (Nat.ltb_spec 1 (length (argv w))) as [L|_]; [lia|].
  rewrite Hfalsy. simpl. now split.
Qed.

End ConverterProperties.

Lemma convert_default_output_witness :
  resolve_hdf5_filepath "/data/run.7/trace.tdms" None =
  "/data/run.7/trace.h5"%string /\
  resolve_hdf5_filepath "/data/run.7/trace" None =
  "/data/run.7/trace.h5"%string /\
  fs (fst (convert_tdms_to_hdf5 sample_parse sample_export tdms_world "x/y.tdms" None))
    !! "x/y.h5"%string =
  Some (Hdf5 (Group ∅ [("data"%string, Group ∅ [])])).
Proof.
  split; [|split].
  - apply (proj1 (proj2 (convert_default_output sample_parse sample_export))
             "/data/run.7/"%string "trace"%string "tdms"%string);
      [right; now exists "/data/run.7"%string | reflexivity..].
  - apply (proj1 (proj2 (proj2 (convert_default_output sample_parse sample_export)))
             "/data/run.7/"%string "trace"%string);
      [right; now exists "/data/run.7"%string | reflexivity..].
  - exact (proj1 (proj1 (proj2 (proj2 (proj2
                   (convert_default_output sample_parse sample_export))))
                   "x/y.tdms"%string tdms_world [84; 68; 83; 109; 1] eq_refl)).
Defined.

Lemma convert_missing_source_witness :
  snd (convert_tdms_to_hdf5 sample_parse sample_export tdms_world "x/none.tdms" None)
  = Exited 1 /\
  stdout (fst (convert_tdms_to_hdf5 sample_parse sample_export tdms_world
                 "x/none.tdms" None))
  = ["Error: The file 'x/none.tdms' does not exist."%string].
Proof.
  pose proof (proj1 (convert_missing_source sample_parse sample_export tdms_world
                       "x/none.tdms" None eq_refl)) as H.
  rewrite H. split; reflexivity.
Defined.

Lemma main_without_arguments_witness :
  main sample_parse sample_export (world_of [] ["tdms_hd5f.py"%string]) None None =
  (print (world_of [] ["tdms_hd5f.py"%string]) "No TDMS file provided. Exiting.",
   Exited 1).
Proof.
  apply (main_without_arguments sample_parse sample_export
           (world_of [] ["tdms_hd5f.py"%string]) None None);
    [simpl; lia | reflexivity].
Defined.



(** ** More on convert_tdms_to_hdf5, main and the script entry *)

Section ConverterOutcomes.
Context {tdms_file : Type}.
Variable tdms_parse : list Z -> option tdms_file.
Variable hdf_export : tdms_file -> H5 unit.



(** X9: converting and then compressing the default target: when the
    export completes with a valid tree that is copyable, the conversion
    stays at the target and its compressed copy, without the attributes
    the export put on the root group, lands at the target's
    "_compressed" sibling. *)
Theorem convert_then_compress (w : world) (p : string) (c : string) (o : Z)
    (t : tdms_file) (f : node) :
  TdmsFile_read tdms_parse w p = Some t ->
  hdf_export t empty_file = (f, Ok tt) ->
  valid_file f = true -> copyable c o f = true ->
  let target := resolve_hdf5_filepath p None in
  let w1 := fst (convert_tdms_to_hdf5 tdms_parse hdf_export w p None) in
  let run := compress_hdf5_file w1 target c o in
  snd run = Returned None /\
  fs (fst run) !! target = Some (Hdf5 f) /\
  fs (fst run) !! compressed_output_path target =
  Some (Hdf5 (Group ∅ (node_members (recompress (c, o) f)))).
Proof.
  intros Hr Hx Hv Hc. cbv zeta.
  assert (H1 : fs (fst (convert_tdms_to_hdf5 tdms_parse hdf_export w p None))
                 !! resolve_hdf5_filepath p None = Some (Hdf5 f)).
  { destruct (convert_eq tdms_parse hdf_export w p None t Hr
                (creatable_default_target p)) as [Hfs _].
    rewrite Hfs, Hx. apply lookup_insert_eq. }
  rewrite (compress_hdf5_file_copyable _ _ c o f H1 Hv Hc).
  cbn [compressed_world fst snd]. split; [reflexivity|]. split.
  - simpl. rewrite lookup_insert_ne by apply compressed_output_path_ne.
    exact H1.
  - simpl. apply lookup_insert_eq.
Qed.


End ConverterOutcomes.



Lemma convert_then_compress_witness :
  fs (fst (compress_hdf5_file
             (fst (convert_tdms_to_hdf5 sample_parse channel_export tdms_world
                     "x/y.tdms" None))
             "x/y.h5" "gzip" 9))
    !! "x/y_compressed.h5"%string =
  Some (Hdf5 (Group ∅ [("g"%string,
                        Group ∅ [("ch"%string,
                                  Dataset {["unit" := AttrStr "V"]} sample_array
                                    (Some ("gzip"%string, 9)))])])).
Proof.
  exact (proj2 (proj2 (convert_then_compress sample_parse channel_export tdms_world
                         "x/y.tdms" "gzip" 9 [84; 68; 83; 109; 1] _
                         eq_refl eq_refl eq_refl eq_refl))).
Defined.




